(** * Research assistant CLI ([v1_basic_sdk.py]): model and verified properties

    A shallow embedding of the three functions of [v1_basic_sdk.py]
    ([fetch_website_content], [analyze_company_with_assistant], [main]) and of
    the Python string operations they use.

    - Python [str] values are modelled as [string]: sequences of code points
      below 256 (the Latin-1 range of Unicode).  [str.isspace], [str.lower]
      and the regular expression class [\s] are given their Python meaning on
      that range.
    - The outside world (the HTTP server behind [requests.get], the HTML
      parser, the remote assistant service) is an [Env]: a state type [R] and
      one handler per library call, each of which returns a value or raises.
    - A program is a function from the state of the world to a result, the
      new state and the list of effects it performed, in order. *)

From Stdlib Require Import String Ascii List Arith Bool Lia DecimalString.
Import ListNotations.
Local Open Scope list_scope.
Local Open Scope string_scope.

(* ================================================================== *)
(** ** Python strings *)

Module PyStr.

(** [str.isspace] on one code point below 256: TAB, LF, VT, FF, CR, the four
    separators FS, GS, RS, US, SPACE, NEL and NO-BREAK SPACE. *)
Definition isspace (c : ascii) : bool :=
  let n := nat_of_ascii c in
  (((9 <=? n) && (n <=? 13)) || ((28 <=? n) && (n <=? 32))
   || (n =? 133) || (n =? 160))%nat.

(** [str.lower] on one code point below 256: A-Z and the accented capitals
    of Latin-1 (all of 192..222 but the multiplication sign 215) move up
    by 32. *)
Definition lower_char (c : ascii) : ascii :=
  let n := nat_of_ascii c in
  if (((65 <=? n) && (n <=? 90))
      || ((192 <=? n) && (n <=? 222) && negb (n =? 215)))%nat
  then ascii_of_nat (n + 32) else c.

(** [s.lower()] *)
Fixpoint lower (s : string) : string :=
  match s with
  | EmptyString => EmptyString
  | String c s' => String (lower_char c) (lower s')
  end.

(** [s.lstrip()] *)
Fixpoint lstrip (s : string) : string :=
  match s with
  | EmptyString => EmptyString
  | String c s' => if isspace c then lstrip s' else s
  end.

(** [s.rstrip()] *)
Fixpoint rstrip (s : string) : string :=
  match s with
  | EmptyString => EmptyString
  | String c s' =>
      match rstrip s' with
      | EmptyString => if isspace c then EmptyString else String c EmptyString
      | t => String c t
      end
  end.

(** [s.strip()] *)
Definition strip (s : string) : string := rstrip (lstrip s).

(** [s.startswith(p)] *)
Definition startswith (s p : string) : bool := String.prefix p s.

(** [s[:n]] for a non-negative [n] *)
Definition slice_to (n : nat) (s : string) : string := String.substring 0 n s.

(** [x in l] for a list of strings *)
Definition in_list (x : string) (l : list string) : bool :=
  existsb (String.eqb x) l.

(** Truth value of a string: non-empty. *)
Definition truthy (s : string) : bool :=
  match s with EmptyString => false | String _ _ => true end.

(** [re.sub(r'\s+', ' ', s)]: every maximal run of whitespace becomes one
    space.  [in_run] tells that the previous character was whitespace. *)
Fixpoint collapse_ws (in_run : bool) (s : string) : string :=
  match s with
  | EmptyString => EmptyString
  | String c s' =>
      if isspace c
      then if in_run then collapse_ws true s'
           else String " " (collapse_ws true s')
      else String c (collapse_ws false s')
  end.

Definition re_sub_ws (s : string) : string := collapse_ws false s.


(** [str(n)] for a natural number. *)
Definition str_of_nat (n : nat) : string :=
  NilEmpty.string_of_uint (Nat.to_uint n).

(** Every character of [s] is whitespace ([s] may be empty). *)
Fixpoint all_space (s : string) : bool :=
  match s with
  | EmptyString => true
  | String c s' => isspace c && all_space s'
  end.

(** The character [c] does not occur in [s]. *)
Fixpoint lacks (c : ascii) (s : string) : bool :=
  match s with
  | EmptyString => true
  | String d s' => negb (Ascii.eqb d c) && lacks c s'
  end.

End PyStr.


(* ================================================================== *)
(** ** Values, exceptions and effects *)

(** A raised Python exception: the name of its class, whether that class
    derives from [Exception] (so that [except Exception] catches it; a
    [KeyboardInterrupt] or [SystemExit] does not), and [str(e)]. *)
Record exn : Type := mk_exn {
  exc_class : string;
  exc_is_Exception : bool;
  exc_str : string
}.

(** What a library call or a pure fallible step does: return or raise. *)
Inductive outcome (A : Type) : Type :=
| Returns (a : A)
| Raises (e : exn).
Arguments Returns {A} a.
Arguments Raises {A} e.

(** What a program does: return, raise, or still be running when the fuel
    given to its [while] loop is spent. *)
Inductive result (A : Type) : Type :=
| Ok (a : A)
| Raise (e : exn)
| OutOfFuel.
Arguments Ok {A} a.
Arguments Raise {A} e.
Arguments OutOfFuel {A}.

(** [requests.Response], the fields the program and [raise_for_status] read. *)
Record Response : Type := mk_Response {
  status_code : nat;
  reason : string;
  url : string;
  text : string
}.

(** The objects of the assistant service, with the attributes the program
    reads ([assistant.id], [thread.id], [run.id], [run.status], [msg.role],
    [msg.content]). *)
Record Assistant : Type := mk_Assistant { assistant_id : string }.
Record Thread : Type := mk_Thread { thread_id : string }.
Record Run : Type := mk_Run { run_id : string; status : string }.

(** A content block of a message: a text block has [.text.value]; an image
    block has no [text] attribute. *)
Inductive ContentBlock : Type :=
| TextBlock (value : string)
| ImageFileBlock.

Record Message : Type := mk_Message {
  role : string;
  content : list ContentBlock
}.

(** The observable effects, in the order the program performs them. *)
Inductive event : Type :=
| Stdout (written : string)
| Stdin (line : string)
| Sleep (seconds : nat)
| HttpGet (url user_agent : string) (timeout : nat)
| AssistantsCreate (name instructions model : string) (tools : list string)
| ThreadsCreate
| MessagesCreate (thread role content : string)
| RunsCreate (thread assistant : string)
| RunsRetrieve (thread run : string)
| MessagesList (thread : string).

(** The outside world: [R] is its state; a call may change it. *)
Record Env (R : Type) : Type := mk_Env {
  (** [requests.get(url, headers={"User-Agent": ua}, timeout=t)] *)
  requests_get : string -> string -> nat -> R -> outcome Response * R;
  (** [BeautifulSoup(html, 'html.parser')], every [script] and [style]
      element extracted, then [get_text(separator=' ', strip=True)] *)
  soup_get_text : string -> outcome string;
  (** [client.beta.assistants.create(name, instructions, model, tools)] *)
  assistants_create :
    string -> string -> string -> list string -> R -> outcome Assistant * R;
  (** [client.beta.threads.create()] *)
  threads_create : R -> outcome Thread * R;
  (** [client.beta.threads.messages.create(thread_id, role, content)] *)
  messages_create : string -> string -> string -> R -> outcome unit * R;
  (** [client.beta.threads.runs.create(thread_id, assistant_id)] *)
  runs_create : string -> string -> R -> outcome Run * R;
  (** [client.beta.threads.runs.retrieve(thread_id, run_id)] *)
  runs_retrieve : string -> string -> R -> outcome Run * R;
  (** [client.beta.threads.messages.list(thread_id)], its [.data] *)
  messages_list : string -> R -> outcome (list Message) * R
}.
Arguments requests_get {R} _ _ _ _ _.
Arguments soup_get_text {R} _ _.
Arguments assistants_create {R} _ _ _ _ _ _.
Arguments threads_create {R} _ _.
Arguments messages_create {R} _ _ _ _ _.
Arguments runs_create {R} _ _ _ _.
Arguments runs_retrieve {R} _ _ _ _.
Arguments messages_list {R} _ _ _.

(** Programs: state in, result, state and effects out. *)
Definition M (R A : Type) : Type := R -> result A * R * list event.

Definition ret {R A} (a : A) : M R A := fun r => (Ok a, r, []).

Definition raise {R A} (e : exn) : M R A := fun r => (Raise e, r, []).

Definition out_of_fuel {R A} : M R A := fun r => (OutOfFuel, r, []).

Definition bind {R A B} (m : M R A) (k : A -> M R B) : M R B :=
  fun r =>
    match m r with
    | (Ok a, r1, t1) =>
        match k a r1 with
        | (res, r2, t2) => (res, r2, (t1 ++ t2)%list)
        end
    | (Raise e, r1, t1) => (Raise e, r1, t1)
    | (OutOfFuel, r1, t1) => (OutOfFuel, r1, t1)
    end.

Notation "x <- m ;; k" := (bind m (fun x => k))
  (at level 61, m at next level, right associativity).
Notation "m ;; k" := (bind m (fun _ => k))
  (at level 61, right associativity).

(** One effect with no answer. *)
Definition emit {R} (ev : event) : M R unit := fun r => (Ok tt, r, [ev]).

(** A pure step that may raise. *)
Definition lift {R A} (o : outcome A) : M R A :=
  match o with
  | Returns a => ret a
  | Raises e => raise e
  end.

(** A call to the outside world: the request is recorded, then answered. *)
Definition call {R A} (ev : event) (h : R -> outcome A * R) : M R A :=
  fun r =>
    match h r with
    | (Returns a, r1) => (Ok a, r1, [ev])
    | (Raises e, r1) => (Raise e, r1, [ev])
    end.

(** [try: body  except Exception as e: handler(e)] *)
Definition try_except {R A} (body : M R A) (handler : exn -> M R A) : M R A :=
  fun r =>
    match body r with
    | (Raise e, r1, t1) =>
        if exc_is_Exception e
        then match handler e r1 with
             | (res, r2, t2) => (res, r2, (t1 ++ t2)%list)
             end
        else (Raise e, r1, t1)
    | other => other
    end.

Definition nl : string := String (ascii_of_nat 10) EmptyString.

(** [print(s)] and [print(s, end=e)] *)
Definition print {R} (s : string) : M R unit := emit (Stdout (s ++ nl)).
Definition print_end {R} (s e : string) : M R unit := emit (Stdout (s ++ e)).

(** [time.sleep(n)] *)
Definition sleep {R} (n : nat) : M R unit := emit (Sleep n).

(* ================================================================== *)
(** ** The program *)

Import PyStr.

Definition USER_AGENT : string :=
  "Mozilla/5.0 (Windows NT 10.0; Win64; x64) AppleWebKit/537.36 (KHTML, like Gecko) Chrome/91.0.4472.124 Safari/537.36".

(** [requests]' [HTTPError], raised by [raise_for_status]. *)
Definition HTTPError (msg : string) : exn := mk_exn "HTTPError" true msg.

(** Reading [.text] on a content block that has none. *)
Definition AttributeError_text : exn :=
  mk_exn "AttributeError" true
         "'ImageFileContentBlock' object has no attribute 'text'".

(** [input()] at the end of standard input. *)
Definition EOFError : exn :=
  mk_exn "EOFError" true "EOF when reading a line".

Definition ERROR_PREFIX : string := "Error fetching website content: ".

Definition NO_ANALYSIS : string := "No analysis was generated.".

Definition ASSISTANT_NAME : string := "Business Analyst Assistant".

Definition ASSISTANT_INSTRUCTIONS : string :=
  nl ++
  "        You are a specialized business analyst assistant. Your task is to analyze company information and provide a structured report." ++ nl ++
  "        You must provide a comprehensive analysis with the following sections:" ++ nl ++
  "        1. Company Summary: Brief overview of what the company does" ++ nl ++
  "        2. Key Features/Products: Main offerings or products" ++ nl ++
  "        3. Purpose/Mission: The company's mission and goals" ++ nl ++
  "        4. Main Competitors: List of major competitors in the same space" ++ nl ++
  "        5. Target Market: Who the company is serving" ++ nl ++
  "        " ++ nl ++
  "        Format the response in a clean, structured way that's easy to read." ++ nl ++
  "        ".

(** The request that [create_business_analyst_assistant] sends. *)
Definition ASSISTANT_REQUEST : event :=
  AssistantsCreate ASSISTANT_NAME ASSISTANT_INSTRUCTIONS
                   "gpt-4-turbo" ["retrieval"].

(** The f-string of the URL branch (lines 77-85), with the two values it
    interpolates.  The text after the second one, comment sign included, is
    part of the string literal. *)
Definition url_message (company_identifier embedded : string) : string :=
  nl ++
  "        Analyze the following company based on its website content:" ++ nl ++
  "        URL: " ++ company_identifier ++ nl ++
  "        " ++ nl ++
  "        Website Content:" ++ nl ++
  "        " ++ embedded ++ "  # Limiting content length" ++ nl ++
  "        " ++ nl ++
  "        Please provide a detailed analysis of the company." ++ nl ++
  "        ".

(** The f-string of the name branch (lines 88-93): what stands before and
    after the interpolated company name. *)
Definition NAME_MESSAGE_HEAD : string :=
  nl ++
  "        Analyze the following company:" ++ nl ++
  "        Company Name: ".

Definition NAME_MESSAGE_TAIL : string :=
  nl ++
  "        " ++ nl ++
  "        Please provide a detailed analysis of the company based on your knowledge." ++ nl ++
  "        ".

Definition name_message (company_identifier : string) : string :=
  NAME_MESSAGE_HEAD ++ company_identifier ++ NAME_MESSAGE_TAIL.

(** [run.status in ["queued", "in_progress"]] *)
Definition status_pending (run : Run) : bool :=
  in_list (status run) ["queued"; "in_progress"].

(** [input_text.startswith(('http://', 'https://'))] *)
Definition is_url (input_text : string) : bool :=
  startswith input_text "http://" || startswith input_text "https://".

(** [user_input.lower() in ['quit', 'exit', 'q']] *)
Definition is_quit (user_input : string) : bool :=
  in_list (lower user_input) ["quit"; "exit"; "q"].

(** The message that [raise_for_status] of [requests] builds: empty unless
    the status is 4xx or 5xx. *)
Definition http_error_msg (response : Response) : string :=
  let code := status_code response in
  if ((400 <=? code) && (code <? 500))%nat then
    str_of_nat code ++ " Client Error: " ++ reason response
    ++ " for url: " ++ url response
  else if ((500 <=? code) && (code <? 600))%nat then
    str_of_nat code ++ " Server Error: " ++ reason response
    ++ " for url: " ++ url response
  else "".

(** What one turn of [main]'s loop ends with. *)
Inductive loop_ctl : Type := Break | Continue.

Section Program.

Context {R : Type} (E : Env R).

(** [response.raise_for_status()] of [requests]: a 4xx or 5xx status raises
    [HTTPError] with the message [http_error_msg]. *)
Definition raise_for_status (response : Response) : M R unit :=
  if truthy (http_error_msg response)
  then raise (HTTPError (http_error_msg response))
  else ret tt.

(** The [try] block of [fetch_website_content] (lines 18-36). *)
Definition fetch_website_content_try (url : string) : M R string :=
  response <- call (HttpGet url USER_AGENT 10)
                   (requests_get E url USER_AGENT 10) ;;
  raise_for_status response ;;
  text <- lift (soup_get_text E (text response)) ;;
  let clean_text := strip (re_sub_ws text) in
  ret clean_text.

(** [fetch_website_content] (lines 15-38). *)
Definition fetch_website_content (url : string) : M R string :=
  try_except (fetch_website_content_try url)
             (fun e => ret (ERROR_PREFIX ++ exc_str e)).

(** [create_business_analyst_assistant] (lines 40-58). *)
Definition create_business_analyst_assistant : M R Assistant :=
  assistant <- call (AssistantsCreate ASSISTANT_NAME ASSISTANT_INSTRUCTIONS
                                      "gpt-4-turbo" ["retrieval"])
                    (assistants_create E ASSISTANT_NAME ASSISTANT_INSTRUCTIONS
                                       "gpt-4-turbo" ["retrieval"]) ;;
  ret assistant.

(** [analyze_company_with_assistant], lines 70-93: the prompt. *)
Definition build_message_content (input_text : string) : M R string :=
  if is_url input_text then
    website_content <- fetch_website_content input_text ;;
    let company_identifier := input_text in
    ret (url_message company_identifier (slice_to 4000 website_content))
  else
    let company_identifier := input_text in
    ret (name_message company_identifier).

(** [analyze_company_with_assistant], lines 115-121: the poll loop, entered
    with the run that [runs.create] returned.  Each turn of the loop spends
    one unit of fuel. *)
Fixpoint poll (fuel : nat) (thread : Thread) (run : Run) : M R Run :=
  if status_pending run then
    match fuel with
    | O => out_of_fuel
    | S fuel' =>
        print_end "." "" ;;
        sleep 1 ;;
        run' <- call (RunsRetrieve (thread_id thread) (run_id run))
                     (runs_retrieve E (thread_id thread) (run_id run)) ;;
        poll fuel' thread run'
    end
  else ret run.

(** [analyze_company_with_assistant], lines 95-128: the session, from the
    creation of the assistant to the list of the thread's messages. *)
Definition run_session (fuel : nat) (message_content : string)
  : M R (list Message) :=
  assistant <- create_business_analyst_assistant ;;
  thread <- call ThreadsCreate (threads_create E) ;;
  call (MessagesCreate (thread_id thread) "user" message_content)
       (messages_create E (thread_id thread) "user" message_content) ;;
  run <- call (RunsCreate (thread_id thread) (assistant_id assistant))
              (runs_create E (thread_id thread) (assistant_id assistant)) ;;
  run <- poll fuel thread run ;;
  print "" ;;
  messages <- call (MessagesList (thread_id thread))
                   (messages_list E (thread_id thread)) ;;
  ret messages.

(** [analyze_company_with_assistant], lines 130-140: the reply. *)
Definition extract_analysis (data : list Message) : M R string :=
  let assistant_messages :=
    filter (fun msg => role msg =? "assistant") data in
  match assistant_messages with
  | latest_message :: _ =>
      match content latest_message with
      | TextBlock value :: _ => ret value
      | ImageFileBlock :: _ => raise AttributeError_text
      | [] => ret NO_ANALYSIS
      end
  | [] => ret NO_ANALYSIS
  end.

(** [analyze_company_with_assistant] (lines 60-140). *)
Definition analyze_company_with_assistant (fuel : nat) (input_text : string)
  : M R string :=
  message_content <- build_message_content input_text ;;
  messages <- run_session fuel message_content ;;
  extract_analysis messages.

(** One turn of the loop of [main] (lines 150-163), for the line that
    [input] returned.  [analyze] is the orchestrator the loop calls. *)
Definition main_turn (analyze : string -> M R string) (user_input : string)
  : M R loop_ctl :=
  if is_quit user_input then ret Break
  else if negb (truthy (strip user_input)) then
    print "Please enter a valid company name or URL." ;;
    ret Continue
  else
    print (nl ++ "Analyzing... This may take a moment.") ;;
    try_except
      (analysis <- analyze user_input ;;
       print (nl ++ analysis))
      (fun e => print ("Error performing analysis: " ++ exc_str e)) ;;
    ret Continue.

Definition INPUT_PROMPT : string :=
  nl ++ "Company name or URL (or 'quit' to exit): ".

(** The loop of [main] (lines 147-163) over the lines that remain on
    standard input; [input] raises [EOFError] when there is none. *)
Fixpoint main_loop (analyze : string -> M R string) (stdin : list string)
  : M R unit :=
  match stdin with
  | [] => emit (Stdout INPUT_PROMPT) ;; raise EOFError
  | user_input :: rest =>
      emit (Stdout INPUT_PROMPT) ;;
      emit (Stdin user_input) ;;
      ctl <- main_turn analyze user_input ;;
      match ctl with
      | Break => ret tt
      | Continue => main_loop analyze rest
      end
  end.

(** [main] (lines 142-165), with the orchestrator as a parameter. *)
Definition main_with (analyze : string -> M R string) (stdin : list string)
  : M R unit :=
  print "OpenAI SDK Research Assistant (Using Assistants API)" ;;
  print "=================================================" ;;
  print "Enter a company name or website URL to analyze:" ;;
  main_loop analyze stdin ;;
  print (nl ++ "Thank you for using the Research Assistant!").

(** [main]: the orchestrator is [analyze_company_with_assistant]. *)
Definition main (fuel : nat) (stdin : list string) : M R unit :=
  main_with (analyze_company_with_assistant fuel) stdin.

End Program.

(* ================================================================== *)
(** ** Scripted worlds, to run the program on *)

Module Demo.

(** A scripted world.  Its state is the list of the statuses that the next
    calls of [runs.retrieve] will report; once the list is spent the run is
    ["completed"].  [failing] names the service call that raises [boom], if
    any. *)
Record script : Type := mk_script {
  page : outcome Response;
  statuses_first : string;
  reply : list Message;
  failing : option string;
  boom : exn
}.

Definition answers {A} (sc : script) (name : string) (a : A) : outcome A :=
  match failing sc with
  | Some f => if f =? name then Raises (boom sc) else Returns a
  | None => Returns a
  end.

Definition env (sc : script) : Env (list string) :=
  {| requests_get := fun _ _ _ r => (page sc, r);
     soup_get_text := fun html => Returns html;
     assistants_create := fun _ _ _ _ r =>
       (answers sc "assistants.create" (mk_Assistant "asst_1"), r);
     threads_create := fun r =>
       (answers sc "threads.create" (mk_Thread "thread_1"), r);
     messages_create := fun _ _ _ r =>
       (answers sc "messages.create" tt, r);
     runs_create := fun _ _ r =>
       (answers sc "runs.create" (mk_Run "run_1" (statuses_first sc)), r);
     runs_retrieve := fun _ run r =>
       match r with
       | [] => (answers sc "runs.retrieve" (mk_Run run "completed"), [])
       | st :: r' => (answers sc "runs.retrieve" (mk_Run run st), r')
       end;
     messages_list := fun _ r =>
       (answers sc "messages.list" (reply sc), r) |}.

Definition APIConnectionError : exn :=
  mk_exn "APIConnectionError" true "Connection error.".

Definition ConnectionError : exn :=
  mk_exn "ConnectionError" true "Max retries exceeded with url: /".

Definition example_page : Response :=
  mk_Response 200 "OK" "https://example.com/"
    "Example   Domain  This domain is for use in examples. ".

Definition report : list Message :=
  [ mk_Message "assistant" [TextBlock "1. Company Summary: ..."];
    mk_Message "user" [TextBlock "Analyze the following company"] ].

(** The page is served, the run completes on the third poll, the assistant
    has replied. *)
Definition served : script :=
  mk_script (Returns example_page) "queued" report None APIConnectionError.

(** The host cannot be reached. *)
Definition unreachable : script :=
  mk_script (Raises ConnectionError) "queued" report None APIConnectionError.

(** The server answers 404. *)
Definition not_found : script :=
  mk_script (Returns (mk_Response 404 "Not Found" "https://example.com/x" ""))
            "queued" report None APIConnectionError.

(** The thread holds the user's message only. *)
Definition silent : script :=
  mk_script (Returns example_page) "failed"
            [mk_Message "user" [TextBlock "Analyze the following company"]]
            None APIConnectionError.

(** The assistant's message has an empty content list. *)
Definition hollow : script :=
  mk_script (Returns example_page) "completed"
            [mk_Message "assistant" []; mk_Message "user" [TextBlock "x"]]
            None APIConnectionError.

(** The service fails at the named call. *)
Definition broken (name : string) : script :=
  mk_script (Returns example_page) "queued" report (Some name)
            APIConnectionError.

(** A page of [n] letters. *)
Fixpoint letters (n : nat) : string :=
  match n with
  | O => EmptyString
  | S n' => String "a" (letters n')
  end.

Definition long_page : script :=
  mk_script (Returns (mk_Response 200 "OK" "https://example.com/"
                                  (letters 4500)))
            "completed" report None APIConnectionError.

End Demo.

(* ================================================================== *)
(** ** Reading traces *)

(** The events of a given kind in a trace. *)
Definition is_http_get (ev : event) : bool :=
  match ev with HttpGet _ _ _ => true | _ => false end.

Definition is_service_call (ev : event) : bool :=
  match ev with
  | AssistantsCreate _ _ _ _ | ThreadsCreate | MessagesCreate _ _ _
  | RunsCreate _ _ | RunsRetrieve _ _ | MessagesList _ => true
  | _ => false
  end.

Definition is_poll_event (ev : event) : bool :=
  match ev with
  | Stdout _ | Sleep _ | RunsRetrieve _ _ => true
  | _ => false
  end.

(** What [run_session] may do when it posts [message_content]: no GET, no
    read of standard input, and no message posted but that one, as
    ["user"]. *)
Definition is_session_event (message_content : string) (ev : event) : bool :=
  match ev with
  | HttpGet _ _ _ | Stdin _ => false
  | MessagesCreate _ role content =>
      (role =? "user") && (content =? message_content)
  | _ => true
  end.

(* ================================================================== *)
(** ** Shapes of texts, traces and services *)

(** [s] begins with a whitespace character. *)
Definition starts_with_space (s : string) : bool :=
  match s with
  | EmptyString => false
  | String c _ => isspace c
  end.

(** [s] ends with a whitespace character. *)
Fixpoint ends_with_space (s : string) : bool :=
  match s with
  | EmptyString => false
  | String c s' =>
      match s' with
      | EmptyString => isspace c
      | String _ _ => ends_with_space s'
      end
  end.

(** Two whitespace characters stand side by side somewhere in [s]. *)
Fixpoint has_double_space (s : string) : bool :=
  match s with
  | EmptyString => false
  | String c s' => (isspace c && starts_with_space s') || has_double_space s'
  end.

(** Every whitespace character of [s] is the plain space. *)
Fixpoint only_plain_spaces (s : string) : bool :=
  match s with
  | EmptyString => true
  | String c s' =>
      (negb (isspace c) || Ascii.eqb c " ") && only_plain_spaces s'
  end.

(** The characters of [s] that are not whitespace, in order. *)
Fixpoint visible (s : string) : string :=
  match s with
  | EmptyString => EmptyString
  | String c s' => if isspace c then visible s' else String c (visible s')
  end.

(** How many events of a trace satisfy [p]. *)
Definition count_events (p : event -> bool) (t : list event) : nat :=
  List.length (filter p t).

Definition is_dot (ev : event) : bool :=
  match ev with Stdout written => written =? "." | _ => false end.

Definition is_sleep_1 (ev : event) : bool :=
  match ev with Sleep 1 => true | _ => false end.

Definition is_runs_retrieve (ev : event) : bool :=
  match ev with RunsRetrieve _ _ => true | _ => false end.

Definition is_assistants_create (ev : event) : bool :=
  match ev with AssistantsCreate _ _ _ _ => true | _ => false end.

Definition is_threads_create (ev : event) : bool :=
  match ev with ThreadsCreate => true | _ => false end.

Definition is_messages_create (ev : event) : bool :=
  match ev with MessagesCreate _ _ _ => true | _ => false end.

Definition is_runs_create (ev : event) : bool :=
  match ev with RunsCreate _ _ => true | _ => false end.

Definition is_messages_list (ev : event) : bool :=
  match ev with MessagesList _ => true | _ => false end.

(** The event is no request about a thread, or it names the thread [thread]
    and, for the creation of a run, the assistant [assistant]. *)
Definition refers_to (thread assistant : string) (ev : event) : bool :=
  match ev with
  | MessagesCreate th _ _ | RunsRetrieve th _ | MessagesList th =>
      th =? thread
  | RunsCreate th a => (th =? thread) && (a =? assistant)
  | _ => true
  end.

(** The service settles the run [run] at its [k]-th retrieval: [run] and the
    runs that the first [k - 1] retrievals return are pending, no retrieval
    raises, and the [k]-th one returns a run that is not pending (for
    [k = 0]: [run] itself is not pending).  The result is that run and the
    state of the world then. *)
Fixpoint settles_after {R} (E : Env R) (thread : Thread) (k : nat)
         (run : Run) (r : R) : option (Run * R) :=
  match k with
  | O => if status_pending run then None else Some (run, r)
  | S k' =>
      if status_pending run then
        match runs_retrieve E (thread_id thread) (run_id run) r with
        | (Returns run', r1) => settles_after E thread k' run' r1
        | (Raises _, _) => None
        end
      else None
  end.

(** The service accepts every request and never settles a run: every run
    it creates or reports is pending. *)
Definition never_settles {R} (E : Env R) : Prop :=
  (forall name instructions model tools r, exists assistant r1,
      assistants_create E name instructions model tools r
      = (Returns assistant, r1))
  /\ (forall r, exists thread r1, threads_create E r = (Returns thread, r1))
  /\ (forall thread role content r, exists r1,
         messages_create E thread role content r = (Returns tt, r1))
  /\ (forall thread assistant r, exists run r1,
         runs_create E thread assistant r = (Returns run, r1)
         /\ status_pending run = true)
  /\ (forall thread run r, exists run' r1,
         runs_retrieve E thread run r = (Returns run', r1)
         /\ status_pending run' = true).

(** A world in which the service accepts everything and every run stays
    ["in_progress"] for ever. *)
Module Stuck.

Definition env : Env unit :=
  {| requests_get := fun _ _ _ r =>
       (Returns (mk_Response 200 "OK" "https://example.com/" "Example"), r);
     soup_get_text := fun html => Returns html;
     assistants_create := fun _ _ _ _ r => (Returns (mk_Assistant "asst_1"), r);
     threads_create := fun r => (Returns (mk_Thread "thread_1"), r);
     messages_create := fun _ _ _ r => (Returns tt, r);
     runs_create := fun _ _ r => (Returns (mk_Run "run_1" "queued"), r);
     runs_retrieve := fun _ run r => (Returns (mk_Run run "in_progress"), r);
     messages_list := fun _ r => (Returns [], r) |}.

End Stuck.

(* ================================================================== *)
(** ** Facts about strings *)

Section StringFacts.

Lemma length_append (s1 s2 : string) :
  String.length (s1 ++ s2) = String.length s1 + String.length s2.
Proof.
  induction s1 as [|c s1 IH]; simpl; [reflexivity | now rewrite IH].
Qed.

Lemma append_assoc (s1 s2 s3 : string) : (s1 ++ s2) ++ s3 = s1 ++ (s2 ++ s3).
Proof.
  induction s1 as [|c s1 IH]; simpl; [reflexivity | now rewrite IH].
Qed.

Lemma append_empty_r (s : string) : s ++ "" = s.
Proof.
  induction s as [|c s IH]; simpl; [reflexivity | now rewrite IH].
Qed.

Lemma prefix_append (p s : string) : String.prefix p (p ++ s) = true.
Proof.
  induction p as [|c p IH]; simpl.
  - now destruct s.
  - destruct (ascii_dec c c) as [_|n]; [exact IH | now destruct n].
Qed.

Lemma prefix_split (p s : string) :
  String.prefix p s = true -> exists rest, s = p ++ rest.
Proof.
  revert s; induction p as [|c p IH]; intros s H.
  - now exists s.
  - destruct s as [|d s]; simpl in H; [discriminate|].
    destruct (ascii_dec c d) as [->|_]; [|discriminate].
    destruct (IH s H) as [rest ->]. now exists rest.
Qed.

(** [s[:n]] has [min n (len s)] characters. *)
Lemma length_slice_to (n : nat) (s : string) :
  String.length (slice_to n s) = Nat.min n (String.length s).
Proof.
  unfold slice_to. revert s; induction n as [|n IH]; intros [|c s]; simpl;
    try reflexivity.
  now rewrite IH.
Qed.

(** [s[:n]] is the beginning of [s]. *)
Lemma slice_to_split (n : nat) (s : string) :
  exists rest, s = slice_to n s ++ rest.
Proof.
  unfold slice_to. revert s; induction n as [|n IH]; intros [|c s]; simpl.
  - now exists "".
  - now exists (String c s).
  - now exists "".
  - destruct (IH s) as [rest H]. exists rest. now rewrite <- H.
Qed.


(** Slicing looks at the first [n] characters only. *)
Lemma slice_to_append (n : nat) (s rest : string) :
  String.length s = n -> slice_to n (s ++ rest) = s.
Proof.
  unfold slice_to. revert s; induction n as [|n IH]; intros [|c s] H;
    simpl in *; try discriminate.
  - now destruct rest.
  - rewrite IH by lia. reflexivity.
Qed.

Lemma length_url_message (company_identifier embedded : string) :
  String.length (url_message company_identifier embedded)
  = String.length (url_message company_identifier "")
    + String.length embedded.
Proof.
  unfold url_message.
  repeat (rewrite length_append; simpl String.length). lia.
Qed.

End StringFacts.

(* ================================================================== *)
(** ** Facts about programs *)

Section MonadFacts.

Context {R : Type}.

Lemma bind_inv {A B} (m : M R A) (k : A -> M R B) r res r' t :
  bind m k r = (res, r', t) ->
  (exists a r1 t1 t2,
      m r = (Ok a, r1, t1) /\ k a r1 = (res, r', t2) /\ t = (t1 ++ t2)%list)
  \/ (exists e, m r = (Raise e, r', t) /\ res = Raise e)
  \/ (m r = (OutOfFuel, r', t) /\ res = OutOfFuel).
Proof.
  unfold bind. destruct (m r) as [[[a|e|] r1] t1].
  - destruct (k a r1) as [[res2 r2] t2] eqn:Hk.
    intros H; inversion H; subst. left. exists a, r1, t1, t2. auto.
  - intros H; inversion H; subst. right; left. exists e. auto.
  - intros H; inversion H; subst. right; right. auto.
Qed.

Lemma bind_Ok_inv {A B} (m : M R A) (k : A -> M R B) r b r' t :
  bind m k r = (Ok b, r', t) ->
  exists a r1 t1 t2,
    m r = (Ok a, r1, t1) /\ k a r1 = (Ok b, r', t2) /\ t = (t1 ++ t2)%list.
Proof.
  intros H. destruct (bind_inv _ _ _ _ _ _ H) as [H1|[[e [_ H1]]|[_ H1]]];
    [exact H1 | discriminate | discriminate].
Qed.

Lemma bind_Ok {A B} (m : M R A) (k : A -> M R B) r a r1 t1 res r2 t2 :
  m r = (Ok a, r1, t1) -> k a r1 = (res, r2, t2) ->
  bind m k r = (res, r2, (t1 ++ t2)%list).
Proof. intros Hm Hk. unfold bind. now rewrite Hm, Hk. Qed.

Lemma bind_Raise {A B} (m : M R A) (k : A -> M R B) r e r1 t1 :
  m r = (Raise e, r1, t1) -> bind m k r = (Raise e, r1, t1).
Proof. intros Hm. unfold bind. now rewrite Hm. Qed.

Lemma bind_OutOfFuel {A B} (m : M R A) (k : A -> M R B) r r1 t1 :
  m r = (OutOfFuel, r1, t1) -> bind m k r = (OutOfFuel, r1, t1).
Proof. intros Hm. unfold bind. now rewrite Hm. Qed.

Lemma call_inv {A} ev (h : R -> outcome A * R) r res r' t :
  call ev h r = (res, r', t) ->
  t = [ev] /\
  ((exists a, h r = (Returns a, r') /\ res = Ok a)
   \/ (exists e, h r = (Raises e, r') /\ res = Raise e)).
Proof.
  unfold call. destruct (h r) as [[a|e] r1]; intros H; inversion H; subst;
    split; eauto.
Qed.

(** A computation that raises an [Exception] inside [try] hands it to the
    handler. *)
Lemma try_except_caught {A} (body : M R A) handler r e r1 t1 :
  body r = (Raise e, r1, t1) -> exc_is_Exception e = true ->
  try_except body handler r
  = (let '(res, r2, t2) := handler e r1 in (res, r2, (t1 ++ t2)%list)).
Proof. intros Hb He. unfold try_except. now rewrite Hb, He. Qed.


End MonadFacts.

Section ProgramFacts.

Context {R : Type} (E : Env R).

(** [fetch_website_content] performs exactly one effect, its GET. *)
Lemma fetch_trace url r res r' t :
  fetch_website_content E url r = (res, r', t) ->
  t = [HttpGet url USER_AGENT 10].
Proof.
  unfold fetch_website_content, try_except, fetch_website_content_try,
    bind, call, raise_for_status, lift, ret, raise.
  destruct (requests_get E url USER_AGENT 10 r) as [[resp|e] r1].
  - destruct (truthy (http_error_msg resp));
      [simpl; intros H; inversion H; reflexivity|].
    destruct (soup_get_text E (text resp)) as [txt|e]; simpl.
    + intros H; inversion H; reflexivity.
    + destruct (exc_is_Exception e); intros H; inversion H; reflexivity.
  - destruct (exc_is_Exception e); intros H; inversion H; reflexivity.
Qed.

(** The poll loop only prints, sleeps and retrieves. *)
Lemma poll_trace fuel : forall thread run r res r' t,
  poll E fuel thread run r = (res, r', t) ->
  forallb is_poll_event t = true.
Proof.
  induction fuel as [|fuel IH]; intros thread run r res r' t; simpl;
    destruct (status_pending run).
  - intros H; inversion H; reflexivity.
  - intros H; inversion H; reflexivity.
  - unfold bind at 1 2, print_end, sleep, emit. simpl.
    unfold bind, call.
    destruct (runs_retrieve E (thread_id thread) (run_id run) r)
      as [[run'|e] r1].
    + destruct (poll E fuel thread run' r1) as [[res2 r2] t2] eqn:Hp.
      intros H; inversion H; subst. simpl. exact (IH _ _ _ _ _ _ Hp).
    + intros H; inversion H; reflexivity.
  - intros H; inversion H; reflexivity.
Qed.

End ProgramFacts.

Section SessionFacts.

Context {R : Type} (E : Env R).

Lemma poll_event_is_session_event mc t :
  forallb is_poll_event t = true -> forallb (is_session_event mc) t = true.
Proof.
  induction t as [|ev t IH]; simpl; [reflexivity|].
  intros H. apply andb_true_iff in H. destruct H as [H1 H2].
  rewrite (IH H2), andb_true_r. now destruct ev.
Qed.

(** Whatever [run_session] does, it performs session events only. *)
Lemma run_session_trace fuel mc r res r' t :
  run_session E fuel mc r = (res, r', t) ->
  forallb (is_session_event mc) t = true.
Proof.
  unfold run_session, create_business_analyst_assistant.
  unfold bind at 1 2, call at 1, ret at 1.
  destruct (assistants_create E _ _ _ _ r) as [[assistant|e] r1];
    [|intros H; inversion H; reflexivity].
  unfold bind at 1, call at 1.
  destruct (threads_create E r1) as [[thread|e] r2];
    [|intros H; inversion H; reflexivity].
  unfold bind at 1, call at 1.
  destruct (messages_create E _ _ _ r2) as [[[]|e] r3];
    [|intros H; inversion H; simpl; now rewrite String.eqb_refl].
  unfold bind at 1, call at 1.
  destruct (runs_create E _ _ r3) as [[run|e] r4];
    [|intros H; inversion H; simpl; now rewrite String.eqb_refl].
  unfold bind at 1.
  destruct (poll E fuel thread run r4) as [[[run'|e|] r5] t5] eqn:Hp;
    pose proof (poll_event_is_session_event mc _
                  (poll_trace E _ _ _ _ _ _ _ Hp)) as Ht5.
  - unfold bind, print, emit, call, ret.
    destruct (messages_list E _ r5) as [[msgs|e] r6];
      intros H; inversion H; subst; simpl;
      rewrite String.eqb_refl; simpl; rewrite forallb_app, Ht5; reflexivity.
  - intros H; inversion H; subst; simpl.
    rewrite String.eqb_refl; simpl. exact Ht5.
  - intros H; inversion H; subst; simpl.
    rewrite String.eqb_refl; simpl. exact Ht5.
Qed.

(** [extract_analysis] has no effect. *)
Lemma extract_analysis_trace msgs (r : R) res r' t :
  extract_analysis msgs r = (res, r', t) -> r' = r /\ t = [].
Proof.
  unfold extract_analysis.
  destruct (filter _ msgs) as [|m ms];
    [intros H; inversion H; auto|].
  destruct (content m) as [|[v|] bs]; intros H; inversion H; auto.
Qed.

(** The message that a run of [analyze_company_with_assistant] posts is the
    one that [build_message_content] returned. *)
Lemma analyze_posts fuel input_text r res r' t thread role content :
  analyze_company_with_assistant E fuel input_text r = (res, r', t) ->
  In (MessagesCreate thread role content) t ->
  role = "user" /\
  exists r1 t1, build_message_content E input_text r = (Ok content, r1, t1).
Proof.
  unfold analyze_company_with_assistant. intros H Hin.
  assert (Hb : forall res1 r1 t1,
             build_message_content E input_text r = (res1, r1, t1) ->
             ~ In (MessagesCreate thread role content) t1).
  { unfold build_message_content. intros res1 r1 t1.
    destruct (is_url input_text).
    - unfold bind.
      destruct (fetch_website_content E input_text r) as [[res0 r0] t0] eqn:Hf.
      apply fetch_trace in Hf. subst t0.
      destruct res0; intros H0; inversion H0; subst; simpl;
        intros [Hx|Hx]; try discriminate; try contradiction.
    - intros H0; inversion H0. simpl. tauto. }
  assert (Hs : forall mc r0 res1 r1 t1,
             run_session E fuel mc r0 = (res1, r1, t1) ->
             In (MessagesCreate thread role content) t1 ->
             role = "user" /\ content = mc).
  { intros mc r0 res1 r1 t1 H1 Hin1. apply run_session_trace in H1.
    rewrite forallb_forall in H1. specialize (H1 _ Hin1). simpl in H1.
    apply andb_true_iff in H1. destruct H1 as [H1 H2].
    apply String.eqb_eq in H1, H2. auto. }
  apply bind_inv in H.
  destruct H as [(mc & r1 & t1 & t2 & Hm & Hk & ->)|[(e & Hm & _)|(Hm & _)]];
    try (exfalso; exact (Hb _ _ _ Hm Hin)).
  apply in_app_or in Hin. destruct Hin as [Hin|Hin];
    [exfalso; exact (Hb _ _ _ Hm Hin)|].
  apply bind_inv in Hk.
  destruct Hk as [(ms & r2 & t3 & t4 & Hs1 & Hx & ->)|[(e & Hs1 & _)|(Hs1 & _)]].
  - apply extract_analysis_trace in Hx. destruct Hx as [_ ->].
    rewrite app_nil_r in Hin.
    destruct (Hs _ _ _ _ _ Hs1 Hin) as [-> ->]. split; [reflexivity|eauto].
  - destruct (Hs _ _ _ _ _ Hs1 Hin) as [-> ->]. split; [reflexivity|eauto].
  - destruct (Hs _ _ _ _ _ Hs1 Hin) as [-> ->]. split; [reflexivity|eauto].
Qed.

End SessionFacts.

(* ================================================================== *)
(** ** The prompt of a URL query *)

(** C1.  For a query that starts with [http://] or [https://], any message
    that a run of [analyze_company_with_assistant] posts to the service is
    the URL template filled with the query and with [website_content[:4000]],
    where [website_content] is the string that [fetch_website_content]
    returned: the embedded text is a prefix of the fetched text, has
    [min 4000 (len website_content)] characters, so at most 4000, and the
    length of the prompt grows by exactly that much over the empty
    template. *)
Theorem url_prompt_embeds_first_4000 :
  forall (R : Type) (E : Env R) (fuel : nat) (input_text : string) (r : R)
         (res : result string) (r' : R) (t : list event)
         (thread role content : string),
    is_url input_text = true ->
    analyze_company_with_assistant E fuel input_text r = (res, r', t) ->
    In (MessagesCreate thread role content) t ->
    exists website_content rest r1,
      fetch_website_content E input_text r
      = (Ok website_content, r1, [HttpGet input_text USER_AGENT 10])
      /\ content = url_message input_text (slice_to 4000 website_content)
      /\ website_content = slice_to 4000 website_content ++ rest
      /\ String.length (slice_to 4000 website_content)
         = Nat.min 4000 (String.length website_content)
      /\ String.length (slice_to 4000 website_content) <= 4000
      /\ String.length content
         = String.length (url_message input_text "")
           + Nat.min 4000 (String.length website_content).
Proof.
  intros R E fuel input_text r res r' t thread role content Hurl Hrun Hin.
  destruct (analyze_posts E _ _ _ _ _ _ _ _ _ Hrun Hin) as [_ (r1 & t1 & Hb)].
  unfold build_message_content in Hb. rewrite Hurl in Hb.
  apply bind_Ok_inv in Hb.
  destruct Hb as (website_content & r2 & t2 & t3 & Hf & Hret & ->).
  unfold ret in Hret. inversion Hret; subst.
  pose proof (fetch_trace E _ _ _ _ _ Hf) as ->.
  destruct (slice_to_split 4000 website_content) as [rest Hrest].
  exists website_content, rest, r1. split; [exact Hf|].
  split; [reflexivity|]. split; [exact Hrest|].
  pose proof (length_slice_to 4000 website_content) as Hlen.
  split; [exact Hlen|]. split; [rewrite Hlen; apply Nat.le_min_l|].
  rewrite length_url_message, Hlen. reflexivity.
Qed.

Lemma url_prompt_embeds_first_4000_witness :
  exists website_content rest r1,
    fetch_website_content (Demo.env Demo.long_page) "https://example.com" []
    = (Ok website_content, r1, [HttpGet "https://example.com" USER_AGENT 10])
    /\ url_message "https://example.com" (Demo.letters 4000)
       = url_message "https://example.com" (slice_to 4000 website_content)
    /\ website_content = slice_to 4000 website_content ++ rest
    /\ String.length (slice_to 4000 website_content)
       = Nat.min 4000 (String.length website_content)
    /\ String.length (slice_to 4000 website_content) <= 4000
    /\ String.length (url_message "https://example.com" (Demo.letters 4000))
       = String.length (url_message "https://example.com" "")
         + Nat.min 4000 (String.length website_content).
Proof.
  pose (run := analyze_company_with_assistant
                 (Demo.env Demo.long_page) 5 "https://example.com" []).
  apply (url_prompt_embeds_first_4000
           _ (Demo.env Demo.long_page) 5 "https://example.com" []
           (fst (fst run)) (snd (fst run)) (snd run) "thread_1" "user").
  - reflexivity.
  - subst run.
    destruct (analyze_company_with_assistant _ _ _ _) as [[res r'] t].
    reflexivity.
  - vm_compute. right; right; right; left. reflexivity.
Defined.

(* ================================================================== *)
(** ** The poll loop *)

Lemma status_pending_true (run : Run) :
  status_pending run = true <->
  status run = "queued" \/ status run = "in_progress".
Proof.
  unfold status_pending, in_list. simpl. rewrite orb_false_r, orb_true_iff.
  now rewrite !String.eqb_eq.
Qed.

Lemma status_pending_false (run : Run) :
  status_pending run = false <->
  status run <> "queued" /\ status run <> "in_progress".
Proof.
  unfold status_pending, in_list. simpl. rewrite orb_false_r, orb_false_iff.
  now rewrite !String.eqb_neq.
Qed.

(** One turn of the loop: a dot, a second of sleep, one retrieval, and the
    loop goes on with the run retrieved. *)
Lemma poll_turn {R} (E : Env R) fuel thread run r run' r1 :
  status_pending run = true ->
  runs_retrieve E (thread_id thread) (run_id run) r = (Returns run', r1) ->
  poll E (S fuel) thread run r
  = (let '(res, r2, t2) := poll E fuel thread run' r1 in
     (res, r2,
      ([Stdout "."; Sleep 1; RunsRetrieve (thread_id thread) (run_id run)]
         ++ t2)%list)).
Proof.
  intros Hp Hr. simpl. rewrite Hp.
  unfold bind at 1 2, print_end, sleep, emit. simpl.
  unfold bind, call. rewrite Hr.
  destruct (poll E fuel thread run' r1) as [[res r2] t2]. reflexivity.
Qed.

(** The loop returns non-pending runs only. *)
Lemma poll_returns_settled {R} (E : Env R) fuel :
  forall thread run r run' r' t,
    poll E fuel thread run r = (Ok run', r', t) ->
    status_pending run' = false.
Proof.
  induction fuel as [|fuel IH]; intros thread run r run' r' t; simpl;
    destruct (status_pending run) eqn:Hp.
  - discriminate.
  - intros H; inversion H; subst. exact Hp.
  - intros H. apply bind_Ok_inv in H.
    destruct H as ([] & r1 & t1 & t2 & _ & H & _).
    apply bind_Ok_inv in H. destruct H as ([] & r2 & t3 & t4 & _ & H & _).
    apply bind_Ok_inv in H. destruct H as (run1 & r3 & t5 & t6 & _ & H & _).
    exact (IH _ _ _ _ _ _ H).
  - intros H; inversion H; subst. exact Hp.
Qed.

(** Against a service that always reports a pending run, the loop uses up
    any fuel: it never returns. *)
Lemma poll_blocks {R} (E : Env R) thread :
  (forall tid rid r0, exists run0 r1,
      runs_retrieve E tid rid r0 = (Returns run0, r1)
      /\ status_pending run0 = true) ->
  forall fuel run r,
    status_pending run = true ->
    exists r' t,
      poll E fuel thread run r = (OutOfFuel, r', t)
      /\ List.length (filter is_service_call t) = fuel.
Proof.
  intros Hsvc. induction fuel as [|fuel IH]; intros run r Hp.
  - simpl. rewrite Hp. exists r, []. split; reflexivity.
  - destruct (Hsvc (thread_id thread) (run_id run) r) as (run0 & r1 & Hr & Hp0).
    rewrite (poll_turn E fuel thread run r run0 r1 Hp Hr).
    destruct (IH run0 r1 Hp0) as (r' & t & Hpoll & Hlen).
    rewrite Hpoll. eexists; eexists. split; [reflexivity|].
    simpl. now rewrite Hlen.
Qed.

(** C2.  The poll loop of [analyze_company_with_assistant]: (a) whenever it
    returns, the status of the run it returns is neither ["queued"] nor
    ["in_progress"]; (b) entered with a run whose status is any other value,
    it returns that run at once, with no effect; (c) while the status is
    ["queued"] or ["in_progress"], a turn prints a dot, sleeps one second,
    retrieves the run and goes on with the retrieved run, so by (b) it
    returns as soon as a retrieved status is another value; (d) if every
    retrieval reports a pending run, the loop does not return, whatever the
    fuel. *)
Theorem poll_waits_until_settled :
  forall (R : Type) (E : Env R) (thread : Thread),
    (forall fuel run r run' r' t,
        poll E fuel thread run r = (Ok run', r', t) ->
        status run' <> "queued" /\ status run' <> "in_progress")
    /\ (forall fuel run r,
           status run <> "queued" -> status run <> "in_progress" ->
           poll E fuel thread run r = (Ok run, r, []))
    /\ (forall fuel run r run' r1,
           status run = "queued" \/ status run = "in_progress" ->
           runs_retrieve E (thread_id thread) (run_id run) r
           = (Returns run', r1) ->
           poll E (S fuel) thread run r
           = (let '(res, r2, t2) := poll E fuel thread run' r1 in
              (res, r2,
               ([Stdout "."; Sleep 1;
                 RunsRetrieve (thread_id thread) (run_id run)] ++ t2)%list)))
    /\ ((forall tid rid r0, exists run0 r1,
            runs_retrieve E tid rid r0 = (Returns run0, r1)
            /\ (status run0 = "queued" \/ status run0 = "in_progress")) ->
        forall fuel run r,
          status run = "queued" \/ status run = "in_progress" ->
          exists r' t, poll E fuel thread run r = (OutOfFuel, r', t)).
Proof.
  intros R E thread. repeat split.
  - apply poll_returns_settled in H. now apply status_pending_false in H.
  - apply poll_returns_settled in H. now apply status_pending_false in H.
  - intros fuel run r H1 H2.
    assert (Hp : status_pending run = false)
      by (apply status_pending_false; auto).
    destruct fuel; simpl; now rewrite Hp.
  - intros fuel run r run' r1 Hp Hr. apply poll_turn; [|exact Hr].
    now apply status_pending_true.
  - intros Hsvc fuel run r Hp.
    destruct (poll_blocks E thread) with (fuel := fuel) (run := run) (r := r)
      as (r' & t & H & _).
    + intros tid rid r0. destruct (Hsvc tid rid r0) as (run0 & r1 & H1 & H2).
      exists run0, r1. split; [exact H1|]. now apply status_pending_true.
    + now apply status_pending_true.
    + now exists r', t.
Qed.

Lemma poll_waits_until_settled_witness :
  poll (Demo.env Demo.served) 5 (mk_Thread "thread_1")
       (mk_Run "run_1" "queued") ["in_progress"]
  = (Ok (mk_Run "run_1" "completed"), [],
     [Stdout "."; Sleep 1; RunsRetrieve "thread_1" "run_1";
      Stdout "."; Sleep 1; RunsRetrieve "thread_1" "run_1"])
  /\ (status (mk_Run "run_1" "completed") <> "queued"
      /\ status (mk_Run "run_1" "completed") <> "in_progress").
Proof.
  destruct (poll_waits_until_settled
              _ (Demo.env Demo.served) (mk_Thread "thread_1"))
    as (Ha & Hb & Hc & _).
  assert (Hrun :
    poll (Demo.env Demo.served) 5 (mk_Thread "thread_1")
         (mk_Run "run_1" "queued") ["in_progress"]
    = (Ok (mk_Run "run_1" "completed"), [],
       [Stdout "."; Sleep 1; RunsRetrieve "thread_1" "run_1";
        Stdout "."; Sleep 1; RunsRetrieve "thread_1" "run_1"])).
  { rewrite (Hc 4 (mk_Run "run_1" "queued") ["in_progress"]
                (mk_Run "run_1" "in_progress") []);
      [|left; reflexivity|reflexivity].
    rewrite (Hc 3 (mk_Run "run_1" "in_progress") []
                (mk_Run "run_1" "completed") []);
      [|right; reflexivity|reflexivity].
    rewrite (Hb 3 (mk_Run "run_1" "completed") []);
      [reflexivity|discriminate|discriminate]. }
  split; [exact Hrun|exact (Ha _ _ _ _ _ _ Hrun)].
Defined.

(* ================================================================== *)
(** ** The reply *)

(** Once the session has delivered the messages of the thread, the result
    of [analyze_company_with_assistant] is what [extract_analysis] reads
    from them. *)
Lemma analyze_after_session {R} (E : Env R) fuel input_text r
      message_content r0 t0 messages r1 t1 :
  build_message_content E input_text r = (Ok message_content, r0, t0) ->
  run_session E fuel message_content r0 = (Ok messages, r1, t1) ->
  analyze_company_with_assistant E fuel input_text r
  = (fst (fst (extract_analysis messages r1)), r1, (t0 ++ t1)%list).
Proof.
  intros Hb Hs. unfold analyze_company_with_assistant.
  destruct (extract_analysis messages r1) as [[res r2] t2] eqn:Hx.
  destruct (extract_analysis_trace _ _ _ _ _ Hx) as [-> ->].
  erewrite bind_Ok; [reflexivity|exact Hb|].
  erewrite bind_Ok; [|exact Hs|exact Hx]. now rewrite app_nil_r.
Qed.

Lemma filter_none {A} (f : A -> bool) (l : list A) :
  (forall x, In x l -> f x = false) -> filter f l = [].
Proof.
  induction l as [|a l IH]; intros H; simpl; [reflexivity|].
  rewrite (H a (or_introl eq_refl)). apply IH. intros x Hx. apply H. now right.
Qed.

(** C3.  If the list of messages that the session delivers holds no message
    whose role is ["assistant"], [analyze_company_with_assistant] returns
    the string ["No analysis was generated."], and nothing else. *)
Theorem no_assistant_message_gives_sentinel :
  forall (R : Type) (E : Env R) (fuel : nat) (input_text : string) (r : R)
         (message_content : string) (r0 : R) (t0 : list event)
         (messages : list Message) (r1 : R) (t1 : list event),
    build_message_content E input_text r = (Ok message_content, r0, t0) ->
    run_session E fuel message_content r0 = (Ok messages, r1, t1) ->
    (forall msg, In msg messages -> role msg <> "assistant") ->
    analyze_company_with_assistant E fuel input_text r
    = (Ok "No analysis was generated.", r1, (t0 ++ t1)%list).
Proof.
  intros R E fuel input_text r mc r0 t0 messages r1 t1 Hb Hs Hnone.
  rewrite (analyze_after_session E _ _ _ _ _ _ _ _ _ Hb Hs).
  unfold extract_analysis. rewrite filter_none; [reflexivity|].
  intros msg Hin. apply String.eqb_neq. exact (Hnone msg Hin).
Qed.

Lemma no_assistant_message_gives_sentinel_witness :
  analyze_company_with_assistant (Demo.env Demo.silent) 5 "Acme" []
  = (Ok "No analysis was generated.", [],
     ([] ++ [AssistantsCreate ASSISTANT_NAME ASSISTANT_INSTRUCTIONS
                              "gpt-4-turbo" ["retrieval"];
             ThreadsCreate;
             MessagesCreate "thread_1" "user" (name_message "Acme");
             RunsCreate "thread_1" "asst_1";
             Stdout nl;
             MessagesList "thread_1"])%list).
Proof.
  apply (no_assistant_message_gives_sentinel
           _ (Demo.env Demo.silent) 5 "Acme" [] (name_message "Acme") [] []
           (Demo.reply Demo.silent)).
  - reflexivity.
  - reflexivity.
  - simpl. intros msg [<-|[]]. discriminate.
Defined.

(** C9.  The sentinel does not tell that the assistant wrote nothing:
    whenever the first message whose role is ["assistant"] has an empty
    content list, [analyze_company_with_assistant] returns
    ["No analysis was generated."] too, neither a text nor an error; and
    there is such a list of messages. *)
Theorem empty_content_gives_sentinel :
  (forall (R : Type) (E : Env R) (fuel : nat) (input_text : string) (r : R)
          (message_content : string) (r0 : R) (t0 : list event)
          (messages : list Message) (r1 : R) (t1 : list event)
          (latest_message : Message) (older : list Message),
      build_message_content E input_text r = (Ok message_content, r0, t0) ->
      run_session E fuel message_content r0 = (Ok messages, r1, t1) ->
      filter (fun msg => role msg =? "assistant") messages
      = latest_message :: older ->
      content latest_message = [] ->
      analyze_company_with_assistant E fuel input_text r
      = (Ok "No analysis was generated.", r1, (t0 ++ t1)%list))
  /\ (exists (messages : list Message) (msg : Message),
         In msg messages /\ role msg = "assistant" /\ content msg = []
         /\ forall (R : Type) (E : Env R) (fuel : nat) (input_text : string)
                   (r : R) (message_content : string) (r0 : R)
                   (t0 : list event) (r1 : R) (t1 : list event),
             build_message_content E input_text r
             = (Ok message_content, r0, t0) ->
             run_session E fuel message_content r0 = (Ok messages, r1, t1) ->
             analyze_company_with_assistant E fuel input_text r
             = (Ok "No analysis was generated.", r1, (t0 ++ t1)%list)).
Proof.
  assert (Hall :
    forall (R : Type) (E : Env R) fuel input_text r mc r0 t0 messages r1 t1
           latest_message older,
      build_message_content E input_text r = (Ok mc, r0, t0) ->
      run_session E fuel mc r0 = (Ok messages, r1, t1) ->
      filter (fun msg => role msg =? "assistant") messages
      = latest_message :: older ->
      content latest_message = [] ->
      analyze_company_with_assistant E fuel input_text r
      = (Ok "No analysis was generated.", r1, (t0 ++ t1)%list)).
  { intros R E fuel input_text r mc r0 t0 messages r1 t1 m older Hb Hs Hf Hc.
    rewrite (analyze_after_session E _ _ _ _ _ _ _ _ _ Hb Hs).
    unfold extract_analysis. rewrite Hf, Hc. reflexivity. }
  split; [exact Hall|].
  exists (Demo.reply Demo.hollow), (mk_Message "assistant" []).
  split; [left; reflexivity|]. split; [reflexivity|]. split; [reflexivity|].
  intros R E fuel input_text r mc r0 t0 r1 t1 Hb Hs.
  exact (Hall R E fuel input_text r mc r0 t0 _ r1 t1
              (mk_Message "assistant" []) [] Hb Hs eq_refl eq_refl).
Qed.

Lemma empty_content_gives_sentinel_witness :
  analyze_company_with_assistant
    (Demo.env Demo.hollow) 5 "https://example.com" []
  = (Ok "No analysis was generated.", [],
     ([HttpGet "https://example.com" USER_AGENT 10]
        ++ [AssistantsCreate ASSISTANT_NAME ASSISTANT_INSTRUCTIONS
                             "gpt-4-turbo" ["retrieval"];
            ThreadsCreate;
            MessagesCreate "thread_1" "user"
              (url_message "https://example.com"
                 "Example Domain This domain is for use in examples.");
            RunsCreate "thread_1" "asst_1";
            Stdout nl;
            MessagesList "thread_1"])%list).
Proof.
  apply (proj1 empty_content_gives_sentinel
           _ (Demo.env Demo.hollow) 5 "https://example.com" []
           (url_message "https://example.com"
              "Example Domain This domain is for use in examples.")
           [] [HttpGet "https://example.com" USER_AGENT 10]
           (Demo.reply Demo.hollow) [] _
           (mk_Message "assistant" []) []).
  - reflexivity.
  - reflexivity.
  - reflexivity.
  - reflexivity.
Defined.

(* ================================================================== *)
(** ** Failures of the fetch *)

Section FetchFacts.

Context {R : Type} (E : Env R).

Lemma http_error_msg_truthy (response : Response) :
  400 <= status_code response < 600 ->
  truthy (http_error_msg response) = true.
Proof.
  intros [Hlo Hhi]. unfold http_error_msg.
  destruct (Nat.lt_ge_cases (status_code response) 500) as [H5|H5].
  - replace ((400 <=? status_code response)
             && (status_code response <? 500))%nat with true.
    + now destruct (str_of_nat (status_code response)).
    + symmetry. apply andb_true_iff. split;
        [now apply Nat.leb_le | now apply Nat.ltb_lt].
  - replace ((400 <=? status_code response)
             && (status_code response <? 500))%nat with false.
    + replace ((500 <=? status_code response)
               && (status_code response <? 600))%nat with true.
      * now destruct (str_of_nat (status_code response)).
      * symmetry. apply andb_true_iff. split;
          [now apply Nat.leb_le | now apply Nat.ltb_lt].
    + symmetry. apply andb_false_iff. right. apply Nat.ltb_ge. exact H5.
Qed.

(** The GET itself raises. *)
Lemma try_transport_error url r e r1 :
  requests_get E url USER_AGENT 10 r = (Raises e, r1) ->
  fetch_website_content_try E url r
  = (Raise e, r1, [HttpGet url USER_AGENT 10]).
Proof.
  intros Hg. unfold fetch_website_content_try, bind, call. now rewrite Hg.
Qed.

(** The server answers with a 4xx or 5xx status. *)
Lemma try_status_error url r response r1 :
  requests_get E url USER_AGENT 10 r = (Returns response, r1) ->
  400 <= status_code response < 600 ->
  fetch_website_content_try E url r
  = (Raise (HTTPError (http_error_msg response)), r1,
     [HttpGet url USER_AGENT 10]).
Proof.
  intros Hg Hc. unfold fetch_website_content_try.
  unfold bind at 1, call. rewrite Hg.
  unfold bind at 1, raise_for_status.
  rewrite (http_error_msg_truthy _ Hc). reflexivity.
Qed.

(** The body of the response cannot be parsed. *)
Lemma try_parse_error url r response r1 e :
  requests_get E url USER_AGENT 10 r = (Returns response, r1) ->
  truthy (http_error_msg response) = false ->
  soup_get_text E (text response) = Raises e ->
  fetch_website_content_try E url r
  = (Raise e, r1, [HttpGet url USER_AGENT 10]).
Proof.
  intros Hg Hc Hs. unfold fetch_website_content_try.
  unfold bind at 1, call. rewrite Hg.
  unfold bind at 1, raise_for_status. rewrite Hc. unfold ret at 1.
  unfold bind, lift. rewrite Hs. reflexivity.
Qed.

(** An [Exception] raised in the [try] block becomes the error string. *)
Lemma fetch_catches url r e r1 t :
  fetch_website_content_try E url r = (Raise e, r1, t) ->
  exc_is_Exception e = true ->
  fetch_website_content E url r = (Ok (ERROR_PREFIX ++ exc_str e), r1, t).
Proof.
  intros Ht He. unfold fetch_website_content.
  rewrite (try_except_caught _ _ _ _ _ _ Ht He). unfold ret.
  now rewrite app_nil_r.
Qed.

(** [fetch_website_content] runs no loop, and what it lets through is no
    [Exception]. *)
Lemma fetch_raises_no_Exception url r res r' t :
  fetch_website_content E url r = (res, r', t) ->
  (exists s, res = Ok s)
  \/ (exists e, res = Raise e /\ exc_is_Exception e = false).
Proof.
  unfold fetch_website_content, try_except.
  destruct (fetch_website_content_try E url r) as [[[s|e|] r1] t1] eqn:Ht.
  - intros H; inversion H; eauto.
  - destruct (exc_is_Exception e) eqn:He.
    + unfold ret. intros H; inversion H; eauto.
    + intros H; inversion H; eauto.
  - exfalso. revert Ht.
    unfold fetch_website_content_try, bind, call, raise_for_status, lift,
      ret, raise.
    destruct (requests_get E url USER_AGENT 10 r) as [[resp|e] r2];
      [|discriminate].
    destruct (truthy (http_error_msg resp)); [discriminate|].
    destruct (soup_get_text E (text resp)); discriminate.
Qed.

End FetchFacts.

(** C4.  [fetch_website_content] turns every failure of its [try] block
    into a returned string that starts with
    ["Error fetching website content:"]: when [requests.get] raises (a
    transport error), when the response has a 4xx or 5xx status
    ([raise_for_status] raises [HTTPError]), and when the handling of the
    response raises.  The exceptions meant are those [except Exception]
    catches, as all errors of [requests] are.  It never raises an
    [Exception]. *)
Theorem fetch_failure_returns_error_string :
  forall (R : Type) (E : Env R) (url : string) (r : R),
    (forall e r1,
        requests_get E url USER_AGENT 10 r = (Raises e, r1) ->
        exc_is_Exception e = true ->
        let s := "Error fetching website content: " ++ exc_str e in
        fetch_website_content E url r = (Ok s, r1, [HttpGet url USER_AGENT 10])
        /\ startswith s "Error fetching website content:" = true)
    /\ (forall response r1,
           requests_get E url USER_AGENT 10 r = (Returns response, r1) ->
           400 <= status_code response < 600 ->
           let s := "Error fetching website content: "
                    ++ http_error_msg response in
           fetch_website_content E url r
           = (Ok s, r1, [HttpGet url USER_AGENT 10])
           /\ startswith s "Error fetching website content:" = true)
    /\ (forall response r1 e,
           requests_get E url USER_AGENT 10 r = (Returns response, r1) ->
           ~ 400 <= status_code response < 600 ->
           soup_get_text E (text response) = Raises e ->
           exc_is_Exception e = true ->
           let s := "Error fetching website content: " ++ exc_str e in
           fetch_website_content E url r
           = (Ok s, r1, [HttpGet url USER_AGENT 10])
           /\ startswith s "Error fetching website content:" = true)
    /\ (forall res r' t,
           fetch_website_content E url r = (res, r', t) ->
           (exists s, res = Ok s)
           \/ (exists e, res = Raise e /\ exc_is_Exception e = false)).
Proof.
  intros R E url r. split; [|split; [|split]].
  - intros e r1 Hg He s. split; [|reflexivity].
    exact (fetch_catches E _ _ _ _ _ (try_transport_error E _ _ _ _ Hg) He).
  - intros response r1 Hg Hc s. split; [|reflexivity].
    exact (fetch_catches E _ _ _ _ _
             (try_status_error E _ _ _ _ Hg Hc) eq_refl).
  - intros response r1 e Hg Hc Hs He s. split; [|reflexivity].
    refine (fetch_catches E _ _ _ _ _
              (try_parse_error E _ _ _ _ _ Hg _ Hs) He).
    unfold http_error_msg.
    destruct ((400 <=? status_code response)
              && (status_code response <? 500))%nat eqn:H4.
    { exfalso. apply Hc. apply andb_true_iff in H4. destruct H4 as [H1 H2].
      apply Nat.leb_le in H1. apply Nat.ltb_lt in H2. lia. }
    destruct ((500 <=? status_code response)
              && (status_code response <? 600))%nat eqn:H5.
    { exfalso. apply Hc. apply andb_true_iff in H5. destruct H5 as [H1 H2].
      apply Nat.leb_le in H1. apply Nat.ltb_lt in H2. lia. }
    reflexivity.
  - intros res r' t. apply fetch_raises_no_Exception.
Qed.

Lemma fetch_failure_returns_error_string_witness :
  (fetch_website_content (Demo.env Demo.unreachable) "https://example.com" []
   = (Ok "Error fetching website content: Max retries exceeded with url: /",
      [], [HttpGet "https://example.com" USER_AGENT 10])
   /\ startswith
        "Error fetching website content: Max retries exceeded with url: /"
        "Error fetching website content:" = true)
  /\ (fetch_website_content (Demo.env Demo.not_found)
                            "https://example.com/x" []
      = (Ok "Error fetching website content: 404 Client Error: Not Found for url: https://example.com/x",
         [], [HttpGet "https://example.com/x" USER_AGENT 10])
      /\ startswith
           "Error fetching website content: 404 Client Error: Not Found for url: https://example.com/x"
           "Error fetching website content:" = true).
Proof.
  split.
  - apply (proj1 (fetch_failure_returns_error_string
                    _ (Demo.env Demo.unreachable) "https://example.com" [])
                 Demo.ConnectionError []).
    + reflexivity.
    + reflexivity.
  - apply (proj1 (proj2 (fetch_failure_returns_error_string
                           _ (Demo.env Demo.not_found)
                           "https://example.com/x" []))
                 (mk_Response 404 "Not Found" "https://example.com/x" "") []).
    + reflexivity.
    + simpl. lia.
Defined.





(* ================================================================== *)
(** ** Facts about whitespace, case and occurrences *)

Section WhitespaceFacts.

(** Lowering a character does not make or unmake whitespace. *)
Lemma isspace_lower_char (c : ascii) :
  isspace (lower_char c) = isspace c.
Proof.
  destruct c as [[] [] [] [] [] [] [] []]; reflexivity.
Qed.

Lemma all_space_lower (s : string) : all_space (lower s) = all_space s.
Proof.
  induction s as [|c s IH]; simpl; [reflexivity|].
  now rewrite isspace_lower_char, IH.
Qed.

Lemma lower_char_space (c : ascii) : isspace c = true -> lower_char c = c.
Proof.
  destruct c as [[] [] [] [] [] [] [] []]; intros H;
    try reflexivity; discriminate H.
Qed.

Lemma lower_all_space (s : string) : all_space s = true -> lower s = s.
Proof.
  induction s as [|c s IH]; simpl; [reflexivity|].
  intros H. apply andb_true_iff in H. destruct H as [Hc Hs].
  now rewrite (lower_char_space c Hc), (IH Hs).
Qed.

Lemma lower_append (s1 s2 : string) : lower (s1 ++ s2) = lower s1 ++ lower s2.
Proof.
  induction s1 as [|c s1 IH]; simpl; [reflexivity | now rewrite IH].
Qed.

Lemma all_space_append (s1 s2 : string) :
  all_space (s1 ++ s2) = all_space s1 && all_space s2.
Proof.
  induction s1 as [|c s1 IH]; simpl; [reflexivity|].
  now rewrite IH, andb_assoc.
Qed.

Lemma lstrip_all_space (s rest : string) :
  all_space s = true -> lstrip (s ++ rest) = lstrip rest.
Proof.
  induction s as [|c s IH]; simpl; [reflexivity|].
  intros H. apply andb_true_iff in H. destruct H as [Hc Hs].
  rewrite Hc. exact (IH Hs).
Qed.

Lemma rstrip_all_space (s : string) : all_space s = true -> rstrip s = "".
Proof.
  induction s as [|c s IH]; simpl; [reflexivity|].
  intros H. apply andb_true_iff in H. destruct H as [Hc Hs].
  now rewrite (IH Hs), Hc.
Qed.

(** [s.strip()] is empty exactly when [s] is empty or all whitespace. *)
Lemma rstrip_empty (s : string) : rstrip s = "" -> all_space s = true.
Proof.
  induction s as [|c s IH]; simpl; [reflexivity|].
  destruct (rstrip s) as [|d t]; [|discriminate].
  destruct (isspace c); [|discriminate]. intros _. now apply IH.
Qed.

Lemma lstrip_suffix_space (s : string) :
  all_space (lstrip s) = true -> all_space s = true.
Proof.
  induction s as [|c s IH]; simpl; [reflexivity|].
  destruct (isspace c) eqn:Hc; simpl.
  - exact IH.
  - rewrite Hc. discriminate.
Qed.

Lemma strip_empty_iff (s : string) :
  strip s = "" <-> all_space s = true.
Proof.
  unfold strip. split.
  - intros H. apply lstrip_suffix_space. now apply rstrip_empty.
  - intros H. apply rstrip_all_space.
    rewrite <- (append_empty_r s). rewrite (lstrip_all_space s "" H).
    reflexivity.
Qed.

Lemma truthy_strip (s : string) :
  truthy (strip s) = negb (all_space s).
Proof.
  destruct (all_space s) eqn:H.
  - apply strip_empty_iff in H. now rewrite H.
  - destruct (strip s) eqn:Hs; [|reflexivity].
    apply strip_empty_iff in Hs. congruence.
Qed.

(** A line of whitespace is none of the words that end the loop. *)
Lemma all_space_not_quit (s : string) :
  all_space s = true -> is_quit s = false.
Proof.
  intros H. unfold is_quit, in_list. simpl.
  destruct (String.eqb_spec (lower s) "quit") as [Hq|_];
    [rewrite <- all_space_lower, Hq in H; discriminate|].
  destruct (String.eqb_spec (lower s) "exit") as [Hq|_];
    [rewrite <- all_space_lower, Hq in H; discriminate|].
  destruct (String.eqb_spec (lower s) "q") as [Hq|_];
    [rewrite <- all_space_lower, Hq in H; discriminate|].
  reflexivity.
Qed.

Lemma is_quit_iff (s : string) :
  is_quit s = true <->
  lower s = "quit" \/ lower s = "exit" \/ lower s = "q".
Proof.
  unfold is_quit, in_list. simpl.
  rewrite orb_false_r, !orb_true_iff, !String.eqb_eq. tauto.
Qed.

End WhitespaceFacts.

(* ================================================================== *)
(** ** The command loop *)

Section LoopFacts.

Context {R : Type} (analyze : string -> M R string).

(** One turn of [main_loop]: the prompt, the line read, the turn, and then
    either the end of the loop or the rest of the input. *)
Lemma main_loop_cons user_input rest r :
  main_loop analyze (user_input :: rest) r
  = match main_turn analyze user_input r with
    | (Ok Break, r1, t1) =>
        (Ok tt, r1, ([Stdout INPUT_PROMPT; Stdin user_input] ++ t1)%list)
    | (Ok Continue, r1, t1) =>
        match main_loop analyze rest r1 with
        | (res, r2, t2) =>
            (res, r2,
             ([Stdout INPUT_PROMPT; Stdin user_input] ++ t1 ++ t2)%list)
        end
    | (Raise e, r1, t1) =>
        (Raise e, r1, ([Stdout INPUT_PROMPT; Stdin user_input] ++ t1)%list)
    | (OutOfFuel, r1, t1) =>
        (OutOfFuel, r1, ([Stdout INPUT_PROMPT; Stdin user_input] ++ t1)%list)
    end.
Proof.
  simpl main_loop. unfold bind at 1 2, emit. simpl.
  unfold bind.
  destruct (main_turn analyze user_input r) as [[[[|]|e|] r1] t1];
    try reflexivity.
  - unfold ret. now rewrite app_nil_r.
  - destruct (main_loop analyze rest r1) as [[res r2] t2]. reflexivity.
Qed.

(** A blank line: the validation message, and the loop goes on. *)
Lemma main_turn_blank user_input r :
  all_space user_input = true ->
  main_turn analyze user_input r
  = (Ok Continue, r,
     [Stdout ("Please enter a valid company name or URL." ++ nl)]).
Proof.
  intros H. unfold main_turn.
  rewrite (all_space_not_quit _ H), truthy_strip, H. reflexivity.
Qed.

(** A quit word: the loop ends, nothing is done. *)
Lemma main_turn_quit user_input r :
  is_quit user_input = true ->
  main_turn analyze user_input r = (Ok Break, r, []).
Proof. intros H. unfold main_turn. now rewrite H. Qed.

(** Any other line: the orchestrator is called on the line as read; what
    it returns is printed, an [Exception] it raises is reported. *)
Lemma main_turn_query user_input r :
  is_quit user_input = false ->
  all_space user_input = false ->
  main_turn analyze user_input r
  = (print (nl ++ "Analyzing... This may take a moment.") ;;
     try_except
       (analysis <- analyze user_input ;;
        print (nl ++ analysis))
       (fun e => print ("Error performing analysis: " ++ exc_str e)) ;;
     ret Continue) r.
Proof.
  intros Hq Hs. unfold main_turn. now rewrite Hq, truthy_strip, Hs.
Qed.

(** When the loop ends, [main] prints its farewell. *)
Lemma main_with_farewell stdin r r' t :
  main_loop analyze stdin r = (Ok tt, r', t) ->
  main_with analyze stdin r
  = (Ok tt, r',
     ([Stdout ("OpenAI SDK Research Assistant (Using Assistants API)" ++ nl);
       Stdout ("=================================================" ++ nl);
       Stdout ("Enter a company name or website URL to analyze:" ++ nl)]
        ++ t
        ++ [Stdout ((nl ++ "Thank you for using the Research Assistant!")
                    ++ nl)])%list).
Proof.
  intros H. unfold main_with.
  unfold bind at 1 2 3, print at 1 2 3, emit. simpl.
  unfold bind. rewrite H. reflexivity.
Qed.

End LoopFacts.

(** C6.  In the loop of [main], whatever the orchestrator [analyze] is:
    (a) a line that is empty or all whitespace only prints the validation
    message, and the loop goes on with the next prompt; (b) a line whose
    lower-case form is [quit], [exit] or [q] ends the loop with no effect
    but the prompt and the read, and [main] then prints its farewell; the
    results do not depend on [analyze] and leave the world as it was, so the
    orchestrator is not called; (c) ["quit"], ["QUIT"], ["exit"] and ["q"]
    are such lines; (d) whenever the loop ends, the farewell is the last
    thing printed. *)
Theorem blank_and_quit_lines_skip_the_orchestrator :
  forall (R : Type) (analyze : string -> M R string)
         (user_input : string) (rest : list string) (r : R),
    (all_space user_input = true ->
     main_turn analyze user_input r
     = (Ok Continue, r,
        [Stdout ("Please enter a valid company name or URL." ++ nl)])
     /\ main_loop analyze (user_input :: rest) r
        = (let '(res, r', t) := main_loop analyze rest r in
           (res, r',
            ([Stdout INPUT_PROMPT; Stdin user_input;
              Stdout ("Please enter a valid company name or URL." ++ nl)]
               ++ t)%list)))
    /\ (lower user_input = "quit" \/ lower user_input = "exit"
        \/ lower user_input = "q" ->
        main_turn analyze user_input r = (Ok Break, r, [])
        /\ main_loop analyze (user_input :: rest) r
           = (Ok tt, r, [Stdout INPUT_PROMPT; Stdin user_input])
        /\ main_with analyze (user_input :: rest) r
           = (Ok tt, r,
              [Stdout ("OpenAI SDK Research Assistant (Using Assistants API)"
                       ++ nl);
               Stdout ("================================================="
                       ++ nl);
               Stdout ("Enter a company name or website URL to analyze:" ++ nl);
               Stdout INPUT_PROMPT; Stdin user_input;
               Stdout ((nl ++ "Thank you for using the Research Assistant!")
                       ++ nl)]))
    /\ (lower "quit" = "quit" /\ lower "QUIT" = "quit"
        /\ lower "exit" = "exit" /\ lower "q" = "q")
    /\ (forall stdin r' t,
           main_loop analyze stdin r = (Ok tt, r', t) ->
           exists before,
             main_with analyze stdin r
             = (Ok tt, r',
                (before
                   ++ [Stdout
                         ((nl ++ "Thank you for using the Research Assistant!")
                          ++ nl)])%list)).
Proof.
  intros R analyze user_input rest r. split; [|split; [|split]].
  - intros H. split; [now apply main_turn_blank|].
    rewrite main_loop_cons, (main_turn_blank analyze _ r H).
    destruct (main_loop analyze rest r) as [[res r'] t]. reflexivity.
  - intros H. apply is_quit_iff in H.
    assert (Hloop : main_loop analyze (user_input :: rest) r
                    = (Ok tt, r, [Stdout INPUT_PROMPT; Stdin user_input]))
      by (rewrite main_loop_cons, (main_turn_quit analyze _ r H);
          reflexivity).
    split; [now apply main_turn_quit|]. split; [exact Hloop|].
    rewrite (main_with_farewell analyze _ _ _ _ Hloop). reflexivity.
  - repeat split.
  - intros stdin r' t H. eexists.
    rewrite (main_with_farewell analyze _ _ _ _ H).
    rewrite app_assoc. reflexivity.
Qed.

Lemma blank_and_quit_lines_skip_the_orchestrator_witness :
  main_turn (analyze_company_with_assistant (Demo.env Demo.served) 5)
            "   " []
  = (Ok Continue, [],
     [Stdout ("Please enter a valid company name or URL." ++ nl)])
  /\ main_loop (analyze_company_with_assistant (Demo.env Demo.served) 5)
               ["QUIT"; "Acme"] []
     = (Ok tt, [], [Stdout INPUT_PROMPT; Stdin "QUIT"]).
Proof.
  split.
  - apply (proj1 (blank_and_quit_lines_skip_the_orchestrator
                    _
                    (analyze_company_with_assistant (Demo.env Demo.served) 5)
                    "   " [] [])).
    reflexivity.
  - apply (proj1 (proj2 (blank_and_quit_lines_skip_the_orchestrator
                           _
                           (analyze_company_with_assistant
                              (Demo.env Demo.served) 5)
                           "QUIT" ["Acme"] []))).
    left. reflexivity.
Defined.

Section PaddedWords.

Lemma length_zero (s : string) : String.length s = 0 -> s = "".
Proof. destruct s; [reflexivity | discriminate]. Qed.

Lemma quit_word_lower (word : string) :
  In word ["quit"; "exit"; "q"] -> lower word = word.
Proof. intros [<-|[<-|[<-|[]]]]; reflexivity. Qed.

Lemma quit_word_not_space (word : string) :
  In word ["quit"; "exit"; "q"] -> all_space word = false.
Proof. intros [<-|[<-|[<-|[]]]]; reflexivity. Qed.

(** A quit word with whitespace around it is not a quit word. *)
Lemma padded_word_differs (left_pad word right_pad other : string) :
  all_space left_pad = true -> all_space right_pad = true ->
  left_pad ++ right_pad <> "" ->
  In word ["quit"; "exit"; "q"] -> In other ["quit"; "exit"; "q"] ->
  left_pad ++ word ++ right_pad <> other.
Proof.
  intros Hl Hr Hne Hw Ho Heq.
  destruct left_pad as [|c left_pad].
  - simpl in Heq, Hne.
    destruct right_pad as [|d right_pad]; [now apply Hne|].
    simpl in Hr. apply andb_true_iff in Hr. destruct Hr as [Hd _].
    destruct Hw as [<-|[<-|[<-|[]]]]; destruct Ho as [<-|[<-|[<-|[]]]];
      simpl in Heq; try discriminate Heq;
      injection Heq as Heq; subst; discriminate Hd.
  - simpl in Hl. apply andb_true_iff in Hl. destruct Hl as [Hc _].
    destruct Ho as [<-|[<-|[<-|[]]]]; simpl in Heq;
      injection Heq as Heq _; subst c; discriminate Hc.
Qed.

Lemma padded_word_not_quit (left_pad word right_pad : string) :
  all_space left_pad = true -> all_space right_pad = true ->
  left_pad ++ right_pad <> "" ->
  In word ["quit"; "exit"; "q"] ->
  is_quit (left_pad ++ word ++ right_pad) = false.
Proof.
  intros Hl Hr Hne Hw.
  destruct (is_quit (left_pad ++ word ++ right_pad)) eqn:Hq; [|reflexivity].
  exfalso. apply is_quit_iff in Hq.
  rewrite !lower_append, (lower_all_space _ Hl), (lower_all_space _ Hr),
    (quit_word_lower _ Hw) in Hq.
  destruct Hq as [Hq|[Hq|Hq]];
    apply (padded_word_differs _ _ _ _ Hl Hr Hne Hw) in Hq;
    try exact Hq; simpl; auto.
Qed.

Lemma padded_word_strip (left_pad word right_pad : string) :
  all_space left_pad = true -> all_space right_pad = true ->
  In word ["quit"; "exit"; "q"] ->
  strip (left_pad ++ word ++ right_pad) = word.
Proof.
  intros Hl Hr Hw. unfold strip. rewrite (lstrip_all_space _ _ Hl).
  pose proof (rstrip_all_space _ Hr) as Hrs.
  destruct Hw as [<-|[<-|[<-|[]]]]; simpl; rewrite Hrs; reflexivity.
Qed.

Lemma padded_word_longer (left_pad word right_pad : string) :
  left_pad ++ right_pad <> "" ->
  left_pad ++ word ++ right_pad <> word.
Proof.
  intros Hne Heq. apply Hne.
  apply (f_equal String.length) in Heq. rewrite !length_append in Heq.
  assert (Hl : String.length left_pad = 0) by lia.
  assert (Hr : String.length right_pad = 0) by lia.
  now rewrite (length_zero _ Hl), (length_zero _ Hr).
Qed.

End PaddedWords.

(** C10.  The quit test of [main] lowers the line but does not trim it.  For
    a line made of [quit], [exit] or [q] with whitespace before or after
    it (or both): the quit test fails, although the trimmed line is the
    word; the turn is the analysis branch, in which the orchestrator is
    called on the line as read, padding included; the turn never ends the
    loop, and when the orchestrator returns its effects are part of the
    turn and its result is printed. *)
Theorem padded_quit_word_is_analyzed :
  forall (R : Type) (analyze : string -> M R string)
         (left_pad word right_pad : string) (r : R),
    all_space left_pad = true ->
    all_space right_pad = true ->
    left_pad ++ right_pad <> "" ->
    In word ["quit"; "exit"; "q"] ->
    let user_input := left_pad ++ word ++ right_pad in
    is_quit user_input = false
    /\ strip user_input = word
    /\ user_input <> strip user_input
    /\ main_turn analyze user_input r
       = (print (nl ++ "Analyzing... This may take a moment.") ;;
          try_except
            (analysis <- analyze user_input ;;
             print (nl ++ analysis))
            (fun e => print ("Error performing analysis: " ++ exc_str e)) ;;
          ret Continue) r
    /\ (forall ctl r' t,
           main_turn analyze user_input r = (Ok ctl, r', t) ->
           ctl = Continue)
    /\ (forall analysis r1 t1,
           analyze user_input r = (Ok analysis, r1, t1) ->
           main_turn analyze user_input r
           = (Ok Continue, r1,
              ([Stdout ((nl ++ "Analyzing... This may take a moment.") ++ nl)]
                 ++ t1 ++ [Stdout ((nl ++ analysis) ++ nl)])%list)).
Proof.
  intros R analyze left_pad word right_pad r Hl Hr Hne Hw user_input.
  assert (Hq : is_quit user_input = false)
    by (now apply padded_word_not_quit).
  assert (Hs : strip user_input = word) by (now apply padded_word_strip).
  assert (Hsp : all_space user_input = false).
  { subst user_input.
    now rewrite !all_space_append, (quit_word_not_space _ Hw), andb_false_r. }
  pose proof (main_turn_query analyze user_input r Hq Hsp) as Hturn.
  split; [exact Hq|]. split; [exact Hs|].
  split; [rewrite Hs; now apply padded_word_longer|].
  split; [exact Hturn|]. split.
  - intros ctl r' t H. rewrite Hturn in H.
    apply bind_Ok_inv in H. destruct H as ([] & r1 & t1 & t2 & _ & H & _).
    apply bind_Ok_inv in H. destruct H as ([] & r2 & t3 & t4 & _ & H & _).
    unfold ret in H. congruence.
  - intros analysis r1 t1 Ha. rewrite Hturn.
    unfold bind at 1, print at 1, emit.
    unfold bind at 1, try_except, bind at 1. rewrite Ha.
    unfold print, emit, ret. simpl. now rewrite app_nil_r.
Qed.

Lemma padded_quit_word_is_analyzed_witness :
  is_quit " quit " = false
  /\ strip " quit " = "quit"
  /\ main_turn (analyze_company_with_assistant (Demo.env Demo.served) 5)
               " quit " []
     = (Ok Continue, [],
        ([Stdout ((nl ++ "Analyzing... This may take a moment.") ++ nl)]
           ++ [AssistantsCreate ASSISTANT_NAME ASSISTANT_INSTRUCTIONS
                                "gpt-4-turbo" ["retrieval"];
               ThreadsCreate;
               MessagesCreate "thread_1" "user" (name_message " quit ");
               RunsCreate "thread_1" "asst_1";
               Stdout "."; Sleep 1; RunsRetrieve "thread_1" "run_1";
               Stdout nl;
               MessagesList "thread_1"]
           ++ [Stdout ((nl ++ "1. Company Summary: ...") ++ nl)])%list).
Proof.
  destruct (padded_quit_word_is_analyzed
              _ (analyze_company_with_assistant (Demo.env Demo.served) 5)
              " " "quit" " " []
              eq_refl eq_refl
              (fun H : " " ++ " " = "" =>
                 eq_ind (" " ++ " ")
                        (fun s => match s with
                                  | EmptyString => False
                                  | String _ _ => True
                                  end) I "" H)
              (or_introl eq_refl))
    as (H1 & H2 & _ & _ & _ & H3).
  split; [exact H1|]. split; [exact H2|].
  apply H3. reflexivity.
Defined.

(* ================================================================== *)
(** ** The prompt of a name query *)

Section Occurrences.









End Occurrences.

(** For a name query the prompt is built with no effect, and all that the
    orchestrator does is the session. *)
Lemma analyze_name_trace {R} (E : Env R) fuel input_text r res r' t :
  is_url input_text = false ->
  analyze_company_with_assistant E fuel input_text r = (res, r', t) ->
  build_message_content E input_text r = (Ok (name_message input_text), r, [])
  /\ forallb (is_session_event (name_message input_text)) t = true.
Proof.
  intros Hurl H.
  assert (Hb : build_message_content E input_text r
               = (Ok (name_message input_text), r, []))
    by (unfold build_message_content; now rewrite Hurl).
  split; [exact Hb|].
  unfold analyze_company_with_assistant in H.
  unfold bind at 1 in H. rewrite Hb in H.
  destruct (bind _ _ r) as [[res1 r1] t1] eqn:Hk in H.
  inversion H; subst. simpl. clear H.
  apply bind_inv in Hk.
  destruct Hk as [(ms & r2 & t3 & t4 & Hs & Hx & ->)|[(e & Hs & _)|(Hs & _)]];
    try exact (run_session_trace E _ _ _ _ _ _ Hs).
  apply extract_analysis_trace in Hx. destruct Hx as [_ ->].
  rewrite app_nil_r. exact (run_session_trace E _ _ _ _ _ _ Hs).
Qed.



(* ================================================================== *)
(** ** Failures of the service *)

Section ServiceFailures.

Context {R : Type} (E : Env R).

(** The session up to the creation of the run, when every call succeeds. *)
Lemma run_session_started fuel mc r assistant r1 thread r2 r3 run r4 :
  assistants_create E ASSISTANT_NAME ASSISTANT_INSTRUCTIONS
                    "gpt-4-turbo" ["retrieval"] r = (Returns assistant, r1) ->
  threads_create E r1 = (Returns thread, r2) ->
  messages_create E (thread_id thread) "user" mc r2 = (Returns tt, r3) ->
  runs_create E (thread_id thread) (assistant_id assistant) r3
  = (Returns run, r4) ->
  run_session E fuel mc r
  = match poll E fuel thread run r4 with
    | (Ok run', r5, t5) =>
        match messages_list E (thread_id thread) r5 with
        | (Returns messages, r6) =>
            (Ok messages, r6,
             ([ASSISTANT_REQUEST; ThreadsCreate;
               MessagesCreate (thread_id thread) "user" mc;
               RunsCreate (thread_id thread) (assistant_id assistant)]
                ++ t5 ++ [Stdout nl; MessagesList (thread_id thread)])%list)
        | (Raises e, r6) =>
            (Raise e, r6,
             ([ASSISTANT_REQUEST; ThreadsCreate;
               MessagesCreate (thread_id thread) "user" mc;
               RunsCreate (thread_id thread) (assistant_id assistant)]
                ++ t5 ++ [Stdout nl; MessagesList (thread_id thread)])%list)
        end
    | (Raise e, r5, t5) =>
        (Raise e, r5,
         ([ASSISTANT_REQUEST; ThreadsCreate;
           MessagesCreate (thread_id thread) "user" mc;
           RunsCreate (thread_id thread) (assistant_id assistant)]
            ++ t5)%list)
    | (OutOfFuel, r5, t5) =>
        (OutOfFuel, r5,
         ([ASSISTANT_REQUEST; ThreadsCreate;
           MessagesCreate (thread_id thread) "user" mc;
           RunsCreate (thread_id thread) (assistant_id assistant)]
            ++ t5)%list)
    end.
Proof.
  intros Ha Ht Hm Hr. unfold run_session, create_business_analyst_assistant.
  unfold bind at 1 2, call at 1, ret at 1. rewrite Ha.
  unfold bind at 1, call at 1. rewrite Ht.
  unfold bind at 1, call at 1. rewrite Hm.
  unfold bind at 1, call at 1. rewrite Hr.
  unfold bind at 1.
  destruct (poll E fuel thread run r4) as [[[run'|e|] r5] t5];
    try reflexivity.
  unfold bind, print, emit, call, ret.
  destruct (messages_list E (thread_id thread) r5) as [[messages|e] r6];
    simpl; reflexivity.
Qed.

Lemma fails_at_assistants_create fuel mc r e r1 :
  assistants_create E ASSISTANT_NAME ASSISTANT_INSTRUCTIONS
                    "gpt-4-turbo" ["retrieval"] r = (Raises e, r1) ->
  run_session E fuel mc r = (Raise e, r1, [ASSISTANT_REQUEST]).
Proof.
  intros Ha. unfold run_session, create_business_analyst_assistant.
  unfold bind at 1 2, call at 1. now rewrite Ha.
Qed.

Lemma fails_at_threads_create fuel mc r assistant r1 e r2 :
  assistants_create E ASSISTANT_NAME ASSISTANT_INSTRUCTIONS
                    "gpt-4-turbo" ["retrieval"] r = (Returns assistant, r1) ->
  threads_create E r1 = (Raises e, r2) ->
  run_session E fuel mc r
  = (Raise e, r2, [ASSISTANT_REQUEST; ThreadsCreate]).
Proof.
  intros Ha Ht. unfold run_session, create_business_analyst_assistant.
  unfold bind at 1 2, call at 1, ret at 1. rewrite Ha.
  unfold bind at 1, call at 1. now rewrite Ht.
Qed.

Lemma fails_at_messages_create fuel mc r assistant r1 thread r2 e r3 :
  assistants_create E ASSISTANT_NAME ASSISTANT_INSTRUCTIONS
                    "gpt-4-turbo" ["retrieval"] r = (Returns assistant, r1) ->
  threads_create E r1 = (Returns thread, r2) ->
  messages_create E (thread_id thread) "user" mc r2 = (Raises e, r3) ->
  run_session E fuel mc r
  = (Raise e, r3,
     [ASSISTANT_REQUEST; ThreadsCreate;
      MessagesCreate (thread_id thread) "user" mc]).
Proof.
  intros Ha Ht Hm. unfold run_session, create_business_analyst_assistant.
  unfold bind at 1 2, call at 1, ret at 1. rewrite Ha.
  unfold bind at 1, call at 1. rewrite Ht.
  unfold bind at 1, call at 1. now rewrite Hm.
Qed.

Lemma fails_at_runs_create fuel mc r assistant r1 thread r2 r3 e r4 :
  assistants_create E ASSISTANT_NAME ASSISTANT_INSTRUCTIONS
                    "gpt-4-turbo" ["retrieval"] r = (Returns assistant, r1) ->
  threads_create E r1 = (Returns thread, r2) ->
  messages_create E (thread_id thread) "user" mc r2 = (Returns tt, r3) ->
  runs_create E (thread_id thread) (assistant_id assistant) r3
  = (Raises e, r4) ->
  run_session E fuel mc r
  = (Raise e, r4,
     [ASSISTANT_REQUEST; ThreadsCreate;
      MessagesCreate (thread_id thread) "user" mc;
      RunsCreate (thread_id thread) (assistant_id assistant)]).
Proof.
  intros Ha Ht Hm Hr. unfold run_session, create_business_analyst_assistant.
  unfold bind at 1 2, call at 1, ret at 1. rewrite Ha.
  unfold bind at 1, call at 1. rewrite Ht.
  unfold bind at 1, call at 1. rewrite Hm.
  unfold bind at 1, call at 1. now rewrite Hr.
Qed.

(** A retrieval that raises ends the poll loop with that exception. *)
Lemma poll_fails_at_retrieve fuel thread run r e r1 :
  status_pending run = true ->
  runs_retrieve E (thread_id thread) (run_id run) r = (Raises e, r1) ->
  poll E (S fuel) thread run r
  = (Raise e, r1,
     [Stdout "."; Sleep 1; RunsRetrieve (thread_id thread) (run_id run)]).
Proof.
  intros Hp Hr. simpl. rewrite Hp.
  unfold bind at 1 2, print_end, sleep, emit. simpl.
  unfold bind, call. now rewrite Hr.
Qed.

(** The orchestrator has no handler: what the session raises, it raises. *)
Lemma analyze_propagates fuel input_text r mc r0 t0 e r1 t1 :
  build_message_content E input_text r = (Ok mc, r0, t0) ->
  run_session E fuel mc r0 = (Raise e, r1, t1) ->
  analyze_company_with_assistant E fuel input_text r
  = (Raise e, r1, (t0 ++ t1)%list).
Proof.
  intros Hb Hs. unfold analyze_company_with_assistant.
  erewrite bind_Ok; [reflexivity|exact Hb|].
  now apply bind_Raise.
Qed.

End ServiceFailures.

Section LoopRecovery.

Context {R : Type} (analyze : string -> M R string).

(** An [Exception] out of the orchestrator is reported, and the turn ends
    normally. *)
Lemma main_turn_reports user_input r e r1 t1 :
  is_quit user_input = false ->
  all_space user_input = false ->
  analyze user_input r = (Raise e, r1, t1) ->
  exc_is_Exception e = true ->
  main_turn analyze user_input r
  = (Ok Continue, r1,
     ([Stdout ((nl ++ "Analyzing... This may take a moment.") ++ nl)]
        ++ t1
        ++ [Stdout (("Error performing analysis: " ++ exc_str e) ++ nl)])%list).
Proof.
  intros Hq Hs Ha He. rewrite (main_turn_query analyze _ r Hq Hs).
  unfold bind at 1, print at 1, emit.
  unfold bind at 1, try_except, bind at 1. rewrite Ha, He.
  unfold print, emit, ret. simpl. now rewrite app_nil_r.
Qed.

(** No turn lets an [Exception] through. *)
Lemma main_turn_raises_no_Exception user_input r e r' t :
  main_turn analyze user_input r = (Raise e, r', t) ->
  exc_is_Exception e = false.
Proof.
  unfold main_turn.
  destruct (is_quit user_input); [discriminate|].
  destruct (negb (truthy (strip user_input))).
  - unfold bind, print, emit, ret. discriminate.
  - unfold bind at 1, print at 1, emit.
    unfold bind at 1, try_except.
    destruct (bind (analyze user_input) _ r) as [[[[]|e0|] r1] t1].
    + unfold ret. discriminate.
    + destruct (exc_is_Exception e0) eqn:He.
      * unfold print, emit, ret. discriminate.
      * intros H. inversion H; subst. exact He.
    + discriminate.
Qed.

End LoopRecovery.

(** C7.  An exception raised by the client of the service is not handled
    in [analyze_company_with_assistant]; the loop of [main] reports it and
    goes on.  (a) Each call of the session, when it raises, makes the
    session raise the same exception: the creation of the assistant, of the
    thread, of the message, of the run, a retrieval in the poll loop, and
    the listing of the messages.  (b) What the session raises, the
    orchestrator raises.  (c) When the orchestrator raises an exception that
    [except Exception] catches, as the errors of the client are, the turn
    prints ["Error performing analysis: " ++ str(e)] and the loop goes on
    with the next line.  (d) No turn of the loop lets such an exception
    through: no failure of a query ends [main]. *)
Theorem service_errors_are_reported_by_the_loop :
  forall (R : Type) (E : Env R) (fuel : nat) (user_input : string) (r : R),
    (forall message_content r0 e,
        (forall r1,
            assistants_create E ASSISTANT_NAME ASSISTANT_INSTRUCTIONS
                              "gpt-4-turbo" ["retrieval"] r0
            = (Raises e, r1) ->
            run_session E fuel message_content r0
            = (Raise e, r1, [ASSISTANT_REQUEST]))
        /\ (forall assistant r1 r2,
               assistants_create E ASSISTANT_NAME ASSISTANT_INSTRUCTIONS
                                 "gpt-4-turbo" ["retrieval"] r0
               = (Returns assistant, r1) ->
               threads_create E r1 = (Raises e, r2) ->
               run_session E fuel message_content r0
               = (Raise e, r2, [ASSISTANT_REQUEST; ThreadsCreate]))
        /\ (forall assistant r1 thread r2 r3,
               assistants_create E ASSISTANT_NAME ASSISTANT_INSTRUCTIONS
                                 "gpt-4-turbo" ["retrieval"] r0
               = (Returns assistant, r1) ->
               threads_create E r1 = (Returns thread, r2) ->
               messages_create E (thread_id thread) "user" message_content r2
               = (Raises e, r3) ->
               run_session E fuel message_content r0
               = (Raise e, r3,
                  [ASSISTANT_REQUEST; ThreadsCreate;
                   MessagesCreate (thread_id thread) "user" message_content]))
        /\ (forall assistant r1 thread r2 r3 r4,
               assistants_create E ASSISTANT_NAME ASSISTANT_INSTRUCTIONS
                                 "gpt-4-turbo" ["retrieval"] r0
               = (Returns assistant, r1) ->
               threads_create E r1 = (Returns thread, r2) ->
               messages_create E (thread_id thread) "user" message_content r2
               = (Returns tt, r3) ->
               runs_create E (thread_id thread) (assistant_id assistant) r3
               = (Raises e, r4) ->
               run_session E fuel message_content r0
               = (Raise e, r4,
                  [ASSISTANT_REQUEST; ThreadsCreate;
                   MessagesCreate (thread_id thread) "user" message_content;
                   RunsCreate (thread_id thread) (assistant_id assistant)]))
        /\ (forall assistant r1 thread r2 r3 run r4 r5 t5,
               assistants_create E ASSISTANT_NAME ASSISTANT_INSTRUCTIONS
                                 "gpt-4-turbo" ["retrieval"] r0
               = (Returns assistant, r1) ->
               threads_create E r1 = (Returns thread, r2) ->
               messages_create E (thread_id thread) "user" message_content r2
               = (Returns tt, r3) ->
               runs_create E (thread_id thread) (assistant_id assistant) r3
               = (Returns run, r4) ->
               poll E fuel thread run r4 = (Raise e, r5, t5) ->
               run_session E fuel message_content r0
               = (Raise e, r5,
                  ([ASSISTANT_REQUEST; ThreadsCreate;
                    MessagesCreate (thread_id thread) "user" message_content;
                    RunsCreate (thread_id thread) (assistant_id assistant)]
                     ++ t5)%list))
        /\ (forall thread run r4 r5 fuel',
               status run = "queued" \/ status run = "in_progress" ->
               runs_retrieve E (thread_id thread) (run_id run) r4
               = (Raises e, r5) ->
               poll E (S fuel') thread run r4
               = (Raise e, r5,
                  [Stdout "."; Sleep 1;
                   RunsRetrieve (thread_id thread) (run_id run)]))
        /\ (forall assistant r1 thread r2 r3 run r4 run' r5 t5 r6,
               assistants_create E ASSISTANT_NAME ASSISTANT_INSTRUCTIONS
                                 "gpt-4-turbo" ["retrieval"] r0
               = (Returns assistant, r1) ->
               threads_create E r1 = (Returns thread, r2) ->
               messages_create E (thread_id thread) "user" message_content r2
               = (Returns tt, r3) ->
               runs_create E (thread_id thread) (assistant_id assistant) r3
               = (Returns run, r4) ->
               poll E fuel thread run r4 = (Ok run', r5, t5) ->
               messages_list E (thread_id thread) r5 = (Raises e, r6) ->
               run_session E fuel message_content r0
               = (Raise e, r6,
                  ([ASSISTANT_REQUEST; ThreadsCreate;
                    MessagesCreate (thread_id thread) "user" message_content;
                    RunsCreate (thread_id thread) (assistant_id assistant)]
                     ++ t5
                     ++ [Stdout nl; MessagesList (thread_id thread)])%list)))
    /\ (forall message_content r0 t0 e r1 t1,
           build_message_content E user_input r
           = (Ok message_content, r0, t0) ->
           run_session E fuel message_content r0 = (Raise e, r1, t1) ->
           analyze_company_with_assistant E fuel user_input r
           = (Raise e, r1, (t0 ++ t1)%list))
    /\ (forall e r1 t1 rest,
           is_quit user_input = false ->
           all_space user_input = false ->
           analyze_company_with_assistant E fuel user_input r
           = (Raise e, r1, t1) ->
           exc_is_Exception e = true ->
           main_turn (analyze_company_with_assistant E fuel) user_input r
           = (Ok Continue, r1,
              ([Stdout ((nl ++ "Analyzing... This may take a moment.") ++ nl)]
                 ++ t1
                 ++ [Stdout (("Error performing analysis: " ++ exc_str e)
                             ++ nl)])%list)
           /\ main_loop (analyze_company_with_assistant E fuel)
                        (user_input :: rest) r
              = (let '(res, r2, t2) :=
                   main_loop (analyze_company_with_assistant E fuel) rest r1 in
                 (res, r2,
                  ([Stdout INPUT_PROMPT; Stdin user_input;
                    Stdout ((nl ++ "Analyzing... This may take a moment.")
                            ++ nl)]
                     ++ t1
                     ++ [Stdout (("Error performing analysis: " ++ exc_str e)
                                 ++ nl)]
                     ++ t2)%list)))
    /\ (forall e r' t,
           main_turn (analyze_company_with_assistant E fuel) user_input r
           = (Raise e, r', t) ->
           exc_is_Exception e = false).
Proof.
  intros R E fuel user_input r. split; [|split; [|split]].
  - intros mc r0 e. repeat apply conj.
    + intros r1. apply fails_at_assistants_create.
    + intros a r1 r2. apply fails_at_threads_create.
    + intros a r1 th r2 r3. apply fails_at_messages_create.
    + intros a r1 th r2 r3 r4. apply fails_at_runs_create.
    + intros a r1 th r2 r3 run r4 r5 t5 Ha Ht Hm Hr Hp.
      rewrite (run_session_started E fuel mc r0 _ _ _ _ _ _ _ Ha Ht Hm Hr).
      now rewrite Hp.
    + intros th run r4 r5 fuel' Hp Hr.
      apply poll_fails_at_retrieve; [|exact Hr].
      now apply status_pending_true.
    + intros a r1 th r2 r3 run r4 run' r5 t5 r6 Ha Ht Hm Hr Hp Hl.
      rewrite (run_session_started E fuel mc r0 _ _ _ _ _ _ _ Ha Ht Hm Hr).
      now rewrite Hp, Hl.
  - intros mc r0 t0 e r1 t1. apply analyze_propagates.
  - intros e r1 t1 rest Hq Hs Ha He.
    pose proof (main_turn_reports _ _ _ _ _ _ Hq Hs Ha He) as Hturn.
    split; [exact Hturn|].
    rewrite main_loop_cons, Hturn.
    destruct (main_loop _ rest r1) as [[res r2] t2].
    simpl. rewrite <- !app_assoc. reflexivity.
  - intros e r' t. apply main_turn_raises_no_Exception.
Qed.

Lemma service_errors_are_reported_by_the_loop_witness :
  main_turn (analyze_company_with_assistant
               (Demo.env (Demo.broken "threads.create")) 5)
            "Acme" []
  = (Ok Continue, [],
     ([Stdout ((nl ++ "Analyzing... This may take a moment.") ++ nl)]
        ++ [ASSISTANT_REQUEST; ThreadsCreate]
        ++ [Stdout (("Error performing analysis: " ++ "Connection error.")
                    ++ nl)])%list).
Proof.
  apply (proj1 (proj2 (proj2 (service_errors_are_reported_by_the_loop
                                _ (Demo.env (Demo.broken "threads.create"))
                                5 "Acme" [])))
           Demo.APIConnectionError [] [ASSISTANT_REQUEST; ThreadsCreate] []).
  - reflexivity.
  - reflexivity.
  - reflexivity.
  - reflexivity.
Defined.

(* ================================================================== *)
(** ** The text that a successful fetch returns *)

Section CleanText.

Lemma collapse_ws_plain (s : string) : forall in_run,
  only_plain_spaces (collapse_ws in_run s) = true.
Proof.
  induction s as [|c s IH]; intros in_run; simpl; [reflexivity|].
  destruct (isspace c) eqn:Hc.
  - destruct in_run; [apply IH|]. simpl. apply IH.
  - simpl. rewrite Hc. simpl. apply IH.
Qed.

Lemma collapse_ws_single (s : string) : forall in_run,
  has_double_space (collapse_ws in_run s) = false
  /\ (in_run = true -> starts_with_space (collapse_ws in_run s) = false).
Proof.
  induction s as [|c s IH]; intros in_run; simpl; [auto|].
  destruct (isspace c) eqn:Hc.
  - destruct in_run.
    + apply IH.
    + destruct (IH true) as [H1 H2]. split; [|discriminate].
      simpl. rewrite H1, (H2 eq_refl). reflexivity.
  - destruct (IH false) as [H1 _]. simpl. rewrite Hc, H1. auto.
Qed.

Lemma collapse_ws_visible (s : string) : forall in_run,
  visible (collapse_ws in_run s) = visible s.
Proof.
  induction s as [|c s IH]; intros in_run; simpl; [reflexivity|].
  destruct (isspace c) eqn:Hc.
  - destruct in_run; [apply IH|]. simpl. apply IH.
  - simpl. rewrite Hc. now rewrite IH.
Qed.

Lemma collapse_ws_length (s : string) : forall in_run,
  String.length (collapse_ws in_run s) <= String.length s.
Proof.
  induction s as [|c s IH]; intros in_run; simpl; [lia|].
  destruct (isspace c); [destruct in_run|]; simpl;
    try (specialize (IH true); lia); specialize (IH false); lia.
Qed.

(** Text that is already in normal form is left alone. *)
Lemma collapse_ws_fixed (s : string) : forall in_run,
  (in_run = true -> starts_with_space s = false) ->
  only_plain_spaces s = true ->
  has_double_space s = false ->
  collapse_ws in_run s = s.
Proof.
  induction s as [|c s IH]; intros in_run Hrun Hplain Hdouble; simpl;
    [reflexivity|].
  simpl in Hplain, Hdouble.
  apply andb_true_iff in Hplain. destruct Hplain as [Hc Hplain].
  apply orb_false_iff in Hdouble. destruct Hdouble as [Hcs Hdouble].
  destruct (isspace c) eqn:Hsp.
  - destruct in_run; [specialize (Hrun eq_refl); simpl in Hrun; congruence|].
    simpl in Hc. apply Ascii.eqb_eq in Hc. subst c.
    simpl in Hcs. now rewrite (IH true (fun _ => Hcs) Hplain Hdouble).
  - now rewrite (IH false (fun H => False_ind _ (diff_false_true H))
                    Hplain Hdouble).
Qed.

Lemma lstrip_no_leading (s : string) : starts_with_space (lstrip s) = false.
Proof.
  induction s as [|c s IH]; simpl; [reflexivity|].
  destruct (isspace c) eqn:Hc; [exact IH | simpl; exact Hc].
Qed.

Lemma lstrip_plain (s : string) :
  only_plain_spaces s = true -> only_plain_spaces (lstrip s) = true.
Proof.
  induction s as [|c s IH]; simpl; [auto|]. intros H.
  destruct (isspace c) eqn:Hc; [|simpl; rewrite Hc; exact H].
  apply andb_true_iff in H. now apply IH.
Qed.

Lemma lstrip_single (s : string) :
  has_double_space s = false -> has_double_space (lstrip s) = false.
Proof.
  induction s as [|c s IH]; simpl; [auto|]. intros H.
  destruct (isspace c) eqn:Hc; [|simpl; rewrite Hc; exact H].
  apply orb_false_iff in H. now apply IH.
Qed.

Lemma visible_all_space (s : string) : all_space s = true -> visible s = "".
Proof.
  induction s as [|c s IH]; simpl; [reflexivity|]. intros H.
  apply andb_true_iff in H. destruct H as [Hc Hs]. rewrite Hc. now apply IH.
Qed.

Lemma lstrip_visible (s : string) : visible (lstrip s) = visible s.
Proof.
  induction s as [|c s IH]; simpl; [reflexivity|].
  destruct (isspace c) eqn:Hc; [exact IH | simpl; now rewrite Hc].
Qed.

Lemma lstrip_length (s : string) : String.length (lstrip s) <= String.length s.
Proof.
  induction s as [|c s IH]; simpl; [lia|].
  destruct (isspace c); simpl; lia.
Qed.

(** What [rstrip] keeps begins as the text did. *)
Lemma rstrip_head (s : string) :
  starts_with_space (rstrip s) = true -> starts_with_space s = true.
Proof.
  destruct s as [|c s]; simpl; [auto|].
  destruct (rstrip s); [destruct (isspace c) eqn:Hc; simpl; congruence|].
  simpl. auto.
Qed.

Lemma rstrip_no_trailing (s : string) : ends_with_space (rstrip s) = false.
Proof.
  induction s as [|c s IH]; simpl; [reflexivity|].
  destruct (rstrip s) as [|d t] eqn:Hr.
  - destruct (isspace c) eqn:Hc; simpl; [reflexivity | exact Hc].
  - exact IH.
Qed.

Lemma rstrip_plain (s : string) :
  only_plain_spaces s = true -> only_plain_spaces (rstrip s) = true.
Proof.
  induction s as [|c s IH]; simpl; [auto|]. intros H.
  apply andb_true_iff in H. destruct H as [Hc Hs].
  specialize (IH Hs). destruct (rstrip s) as [|d t].
  - destruct (isspace c) eqn:Hsp; simpl; [reflexivity|].
    now rewrite Hsp.
  - change (only_plain_spaces (String c (String d t)))
      with ((negb (isspace c) || Ascii.eqb c " ")
            && only_plain_spaces (String d t)).
    now rewrite Hc, IH.
Qed.

Lemma rstrip_single (s : string) :
  has_double_space s = false -> has_double_space (rstrip s) = false.
Proof.
  induction s as [|c s IH]; simpl; [auto|]. intros H.
  apply orb_false_iff in H. destruct H as [Hc Hs].
  specialize (IH Hs). pose proof (rstrip_head s) as Hhead.
  destruct (rstrip s) as [|d t].
  - destruct (isspace c); simpl; [reflexivity|].
    now rewrite andb_false_r.
  - change (has_double_space (String c (String d t)))
      with ((isspace c && starts_with_space (String d t))
            || has_double_space (String d t)).
    rewrite IH, orb_false_r.
    destruct (isspace c); [|reflexivity]. simpl in Hc |- *.
    destruct (isspace d) eqn:Hd; [|reflexivity].
    simpl in Hhead. rewrite Hd in Hhead. specialize (Hhead eq_refl). congruence.
Qed.

Lemma rstrip_visible (s : string) : visible (rstrip s) = visible s.
Proof.
  induction s as [|c s IH]; simpl; [reflexivity|].
  destruct (rstrip s) as [|d t] eqn:Hr.
  - apply rstrip_empty in Hr. rewrite (visible_all_space _ Hr).
    destruct (isspace c) eqn:Hc; simpl; [reflexivity | now rewrite Hc].
  - change (visible (String c (String d t)))
      with (if isspace c then visible (String d t)
            else String c (visible (String d t))).
    now rewrite IH.
Qed.

Lemma rstrip_length (s : string) : String.length (rstrip s) <= String.length s.
Proof.
  induction s as [|c s IH]; simpl; [lia|].
  destruct (rstrip s); [destruct (isspace c)|]; simpl in *; lia.
Qed.

Lemma lstrip_fixed (s : string) : starts_with_space s = false -> lstrip s = s.
Proof. destruct s as [|c s]; simpl; [auto|]. now intros ->. Qed.

Lemma rstrip_fixed (s : string) : ends_with_space s = false -> rstrip s = s.
Proof.
  induction s as [|c s IH]; [reflexivity|].
  destruct s as [|d s'].
  - simpl. now intros ->.
  - intros H. change (ends_with_space (String d s') = false) in H.
    change (rstrip (String c (String d s')))
      with (match rstrip (String d s') with
            | EmptyString =>
                if isspace c then EmptyString else String c EmptyString
            | String a t => String c (String a t)
            end).
    now rewrite (IH H).
Qed.

(** The text [strip(re.sub(r'\s+', ' ', text))] is in normal form. *)
Lemma clean_text_normal (extracted : string) :
  let clean_text := strip (re_sub_ws extracted) in
  starts_with_space clean_text = false
  /\ ends_with_space clean_text = false
  /\ has_double_space clean_text = false
  /\ only_plain_spaces clean_text = true.
Proof.
  unfold strip, re_sub_ws. simpl.
  destruct (collapse_ws_single extracted false) as [Hd _].
  pose proof (collapse_ws_plain extracted false) as Hp.
  repeat split.
  - destruct (starts_with_space (rstrip (lstrip (collapse_ws false extracted))))
      eqn:H; [|reflexivity].
    apply rstrip_head in H. now rewrite lstrip_no_leading in H.
  - apply rstrip_no_trailing.
  - now apply rstrip_single, lstrip_single.
  - now apply rstrip_plain, lstrip_plain.
Qed.

End CleanText.

Lemma collapse_ws_all_space (s : string) : forall in_run,
  all_space (collapse_ws in_run s) = all_space s.
Proof.
  induction s as [|c s IH]; intros in_run; simpl; [reflexivity|].
  destruct (isspace c) eqn:Hc.
  - destruct in_run; [apply IH|]. simpl. apply IH.
  - simpl. now rewrite Hc.
Qed.

Lemma http_error_msg_empty (response : Response) :
  ~ 400 <= status_code response < 600 -> http_error_msg response = "".
Proof.
  intros Hc. unfold http_error_msg.
  destruct ((400 <=? status_code response)
            && (status_code response <? 500))%nat eqn:H4.
  { exfalso. apply Hc. apply andb_true_iff in H4. destruct H4 as [H1 H2].
    apply Nat.leb_le in H1. apply Nat.ltb_lt in H2. lia. }
  destruct ((500 <=? status_code response)
            && (status_code response <? 600))%nat eqn:H5.
  { exfalso. apply Hc. apply andb_true_iff in H5. destruct H5 as [H1 H2].
    apply Nat.leb_le in H1. apply Nat.ltb_lt in H2. lia. }
  reflexivity.
Qed.

(** The fetch when nothing fails. *)
Lemma fetch_succeeds {R} (E : Env R) url r response r1 extracted :
  requests_get E url USER_AGENT 10 r = (Returns response, r1) ->
  http_error_msg response = "" ->
  soup_get_text E (text response) = Returns extracted ->
  fetch_website_content E url r
  = (Ok (strip (re_sub_ws extracted)), r1, [HttpGet url USER_AGENT 10]).
Proof.
  intros Hg Hc Hs.
  unfold fetch_website_content, try_except, fetch_website_content_try.
  unfold bind at 1, call. rewrite Hg.
  unfold bind at 1, raise_for_status. rewrite Hc. simpl truthy. cbv iota.
  unfold ret at 1. unfold bind, lift. rewrite Hs. reflexivity.
Qed.

(** X1.  When the GET returns a response whose status is outside 400..599
    and the text of the page is extracted, [fetch_website_content] returns
    that text normalised: it neither begins nor ends with whitespace, its
    only whitespace characters are single plain spaces, never two in a row,
    and normalising it again changes nothing. *)
Theorem fetched_text_is_normalised :
  forall (R : Type) (E : Env R) (url : string) (r : R)
         (response : Response) (r1 : R) (extracted : string),
    requests_get E url USER_AGENT 10 r = (Returns response, r1) ->
    ~ 400 <= status_code response < 600 ->
    soup_get_text E (text response) = Returns extracted ->
    exists clean_text,
      fetch_website_content E url r
      = (Ok clean_text, r1, [HttpGet url USER_AGENT 10])
      /\ clean_text = strip (re_sub_ws extracted)
      /\ starts_with_space clean_text = false
      /\ ends_with_space clean_text = false
      /\ has_double_space clean_text = false
      /\ only_plain_spaces clean_text = true
      /\ strip (re_sub_ws clean_text) = clean_text.
Proof.
  intros R E url r response r1 extracted Hg Hc Hs.
  exists (strip (re_sub_ws extracted)).
  destruct (clean_text_normal extracted) as (H1 & H2 & H3 & H4).
  split; [exact (fetch_succeeds E _ _ _ _ _ Hg (http_error_msg_empty _ Hc) Hs)|].
  split; [reflexivity|]. repeat (split; [assumption|]).
  set (clean_text := strip (re_sub_ws extracted)) in *.
  unfold re_sub_ws.
  rewrite (collapse_ws_fixed _ false (fun H => False_ind _ (diff_false_true H))
             H4 H3).
  unfold strip at 1. now rewrite (lstrip_fixed _ H1), (rstrip_fixed _ H2).
Qed.

Lemma fetched_text_is_normalised_witness :
  exists clean_text,
    fetch_website_content (Demo.env Demo.served) "https://example.com" []
    = (Ok clean_text, [], [HttpGet "https://example.com" USER_AGENT 10])
    /\ clean_text
       = strip (re_sub_ws
                  "Example   Domain  This domain is for use in examples. ")
    /\ starts_with_space clean_text = false
    /\ ends_with_space clean_text = false
    /\ has_double_space clean_text = false
    /\ only_plain_spaces clean_text = true
    /\ strip (re_sub_ws clean_text) = clean_text.
Proof.
  apply (fetched_text_is_normalised
           _ (Demo.env Demo.served) "https://example.com" []
           Demo.example_page []).
  - reflexivity.
  - simpl. lia.
  - reflexivity.
Defined.

(** X2.  Normalising the extracted text touches whitespace only: the
    characters that are not whitespace are kept, all of them and in their
    order; the text never gets longer; and the result is empty exactly when
    the extracted text is empty or all whitespace. *)
Theorem cleaning_keeps_the_visible_text :
  forall extracted : string,
    visible (strip (re_sub_ws extracted)) = visible extracted
    /\ String.length (strip (re_sub_ws extracted)) <= String.length extracted
    /\ (strip (re_sub_ws extracted) = "" <-> all_space extracted = true).
Proof.
  intros extracted. unfold re_sub_ws. split; [|split].
  - unfold strip. now rewrite rstrip_visible, lstrip_visible, collapse_ws_visible.
  - unfold strip.
    pose proof (rstrip_length (lstrip (collapse_ws false extracted))).
    pose proof (lstrip_length (collapse_ws false extracted)).
    pose proof (collapse_ws_length extracted false). lia.
  - now rewrite strip_empty_iff, collapse_ws_all_space.
Qed.

(* ================================================================== *)
(** ** How long the poll loop runs *)

Section PollLength.

Context {R : Type} (E : Env R).

Lemma count_events_app p (t1 t2 : list event) :
  count_events p (t1 ++ t2) = count_events p t1 + count_events p t2.
Proof. unfold count_events. now rewrite filter_app, length_app. Qed.

(** In every run of the loop the dots, the seconds slept and the
    retrievals are as many. *)
Lemma poll_counts fuel : forall thread run r res r' t,
  poll E fuel thread run r = (res, r', t) ->
  count_events is_dot t = count_events is_runs_retrieve t
  /\ count_events is_sleep_1 t = count_events is_runs_retrieve t
  /\ List.length t = 3 * count_events is_runs_retrieve t.
Proof.
  induction fuel as [|fuel IH]; intros thread run r res r' t; simpl;
    destruct (status_pending run).
  - intros H; inversion H; subst. auto.
  - intros H; inversion H; subst. auto.
  - unfold bind at 1 2, print_end, sleep, emit. simpl.
    unfold bind, call.
    destruct (runs_retrieve E (thread_id thread) (run_id run) r)
      as [[run'|e] r1].
    + destruct (poll E fuel thread run' r1) as [[res2 r2] t2] eqn:Hp.
      intros H; inversion H; subst.
      destruct (IH _ _ _ _ _ _ Hp) as (H1 & H2 & H3).
      unfold count_events in *. simpl. lia.
    + intros H; inversion H; subst. unfold count_events. simpl. auto.
  - intros H; inversion H; subst. auto.
Qed.

End PollLength.

(** The loop against a service that settles the run at the [k]-th
    retrieval, given time for [k] turns. *)
Lemma poll_settles :
  forall (R : Type) (E : Env R) (thread : Thread) (k : nat) (run : Run)
         (r : R) (run' : Run) (r' : R),
    settles_after E thread k run r = Some (run', r') ->
    forall fuel,
      k <= fuel ->
      exists t,
        poll E fuel thread run r = (Ok run', r', t)
        /\ count_events is_dot t = k
        /\ count_events is_sleep_1 t = k
        /\ count_events is_runs_retrieve t = k
        /\ List.length t = 3 * k.
Proof.
  intros R E thread k. induction k as [|k IH]; intros run r run' r' Hs fuel Hk.
  - simpl in Hs. destruct (status_pending run) eqn:Hp; [discriminate|].
    inversion Hs; subst. exists [].
    destruct fuel; simpl; rewrite Hp; auto.
  - simpl in Hs. destruct (status_pending run) eqn:Hp; [|discriminate].
    destruct (runs_retrieve E (thread_id thread) (run_id run) r)
      as [[run1|e] r1] eqn:Hr; [|discriminate].
    destruct fuel as [|fuel]; [lia|].
    rewrite (poll_turn E fuel thread run r run1 r1 Hp Hr).
    destruct (IH run1 r1 run' r' Hs fuel) as (t & Ht & H1 & H2 & H3 & H4);
      [lia|].
    rewrite Ht. eexists. split; [reflexivity|].
    rewrite !count_events_app, H1, H2, H3. simpl List.length.
    rewrite H4. unfold count_events. simpl. lia.
Qed.

(** X3.  The poll loop ends when the service settles the run.  If the run
    is pending until its [k]-th retrieval, which returns a run that is not,
    then the loop, given time for [k] turns, returns exactly that run, in the
    state the service is in then, after [k] dots, [k] sleeps of one second and
    [k] retrievals and nothing else; with less time it is still running. *)
Theorem poll_returns_at_the_first_settled_status :
  forall (R : Type) (E : Env R) (thread : Thread) (k : nat) (run : Run)
         (r : R) (run' : Run) (r' : R),
    settles_after E thread k run r = Some (run', r') ->
    forall fuel,
      (k <= fuel ->
       exists t,
         poll E fuel thread run r = (Ok run', r', t)
         /\ count_events is_dot t = k
         /\ count_events is_sleep_1 t = k
         /\ count_events is_runs_retrieve t = k
         /\ List.length t = 3 * k)
      /\ (fuel < k ->
          exists r'' t, poll E fuel thread run r = (OutOfFuel, r'', t)).
Proof.
  intros R E thread k run r run' r' Hs fuel. split.
  - now apply poll_settles.
  - revert run r Hs fuel.
    induction k as [|k IH]; intros run r Hs fuel Hk; [lia|].
    simpl in Hs. destruct (status_pending run) eqn:Hp; [|discriminate].
    destruct (runs_retrieve E (thread_id thread) (run_id run) r)
      as [[run1|e] r1] eqn:Hr; [|discriminate].
    destruct fuel as [|fuel].
    + exists r, []. simpl. now rewrite Hp.
    + rewrite (poll_turn E fuel thread run r run1 r1 Hp Hr).
      destruct (IH run1 r1 Hs fuel) as (r'' & t & Ht); [lia|].
      rewrite Ht. eauto.
Qed.

Lemma poll_returns_at_the_first_settled_status_witness :
  (2 <= 5 ->
   exists t,
     poll (Demo.env Demo.served) 5 (mk_Thread "thread_1")
          (mk_Run "run_1" "queued") ["in_progress"]
     = (Ok (mk_Run "run_1" "completed"), [], t)
     /\ count_events is_dot t = 2
     /\ count_events is_sleep_1 t = 2
     /\ count_events is_runs_retrieve t = 2
     /\ List.length t = 3 * 2)
  /\ (5 < 2 ->
      exists r'' t,
        poll (Demo.env Demo.served) 5 (mk_Thread "thread_1")
             (mk_Run "run_1" "queued") ["in_progress"]
        = (OutOfFuel, r'', t)).
Proof.
  apply (poll_returns_at_the_first_settled_status
           _ (Demo.env Demo.served) (mk_Thread "thread_1") 2
           (mk_Run "run_1" "queued") ["in_progress"]
           (mk_Run "run_1" "completed") []).
  reflexivity.
Defined.

(* ================================================================== *)
(** ** The shape of a session *)

Section SessionShape.

Context {R : Type} (E : Env R).

(** A session that delivers messages went through every call. *)
Lemma run_session_Ok_inv fuel mc r messages r' t :
  run_session E fuel mc r = (Ok messages, r', t) ->
  exists assistant r1 thread r2 r3 run r4 run' r5 t5,
    assistants_create E ASSISTANT_NAME ASSISTANT_INSTRUCTIONS
                      "gpt-4-turbo" ["retrieval"] r = (Returns assistant, r1)
    /\ threads_create E r1 = (Returns thread, r2)
    /\ messages_create E (thread_id thread) "user" mc r2 = (Returns tt, r3)
    /\ runs_create E (thread_id thread) (assistant_id assistant) r3
       = (Returns run, r4)
    /\ poll E fuel thread run r4 = (Ok run', r5, t5)
    /\ messages_list E (thread_id thread) r5 = (Returns messages, r')
    /\ t = ([ASSISTANT_REQUEST; ThreadsCreate;
             MessagesCreate (thread_id thread) "user" mc;
             RunsCreate (thread_id thread) (assistant_id assistant)]
              ++ t5 ++ [Stdout nl; MessagesList (thread_id thread)])%list.
Proof.
  intros H.
  destruct (assistants_create E ASSISTANT_NAME ASSISTANT_INSTRUCTIONS
                              "gpt-4-turbo" ["retrieval"] r)
    as [[assistant|e] r1] eqn:Ha;
    [|rewrite (fails_at_assistants_create E fuel mc r e r1 Ha) in H;
      discriminate].
  destruct (threads_create E r1) as [[thread|e] r2] eqn:Ht;
    [|rewrite (fails_at_threads_create E fuel mc r _ _ e r2 Ha Ht) in H;
      discriminate].
  destruct (messages_create E (thread_id thread) "user" mc r2)
    as [[[]|e] r3] eqn:Hm;
    [|rewrite (fails_at_messages_create E fuel mc r _ _ _ _ e r3 Ha Ht Hm) in H;
      discriminate].
  destruct (runs_create E (thread_id thread) (assistant_id assistant) r3)
    as [[run|e] r4] eqn:Hr;
    [|rewrite (fails_at_runs_create E fuel mc r _ _ _ _ _ e r4 Ha Ht Hm Hr)
        in H; discriminate].
  rewrite (run_session_started E fuel mc r _ _ _ _ _ _ _ Ha Ht Hm Hr) in H.
  destruct (poll E fuel thread run r4) as [[[run'|e|] r5] t5] eqn:Hp;
    try discriminate.
  destruct (messages_list E (thread_id thread) r5) as [[ms|e] r6] eqn:Hl;
    [|discriminate].
  inversion H; subst.
  exists assistant, r1, thread, r2, r3, run, r4, run', r5, t5.
  repeat split; assumption.
Qed.

(** An analysis that returns went through the prompt and the session. *)
Lemma analyze_Ok_inv fuel input_text r value r' t :
  analyze_company_with_assistant E fuel input_text r = (Ok value, r', t) ->
  exists mc r0 t0 messages t1,
    build_message_content E input_text r = (Ok mc, r0, t0)
    /\ run_session E fuel mc r0 = (Ok messages, r', t1)
    /\ extract_analysis messages r' = (Ok value, r', [])
    /\ t = (t0 ++ t1)%list.
Proof.
  unfold analyze_company_with_assistant. intros H.
  apply bind_Ok_inv in H. destruct H as (mc & r0 & t0 & t2 & Hb & H & ->).
  apply bind_Ok_inv in H. destruct H as (ms & r1 & t1 & t3 & Hs & Hx & ->).
  destruct (extract_analysis_trace _ _ _ _ _ Hx) as [-> ->].
  exists mc, r0, t0, ms, t1. rewrite app_nil_r. auto.
Qed.

(** The prompt is built with one GET for a URL and with no effect for a
    name. *)
Lemma build_message_content_trace input_text r res r' t :
  build_message_content E input_text r = (res, r', t) ->
  t = if is_url input_text then [HttpGet input_text USER_AGENT 10] else [].
Proof.
  unfold build_message_content. destruct (is_url input_text).
  - intros H. apply bind_inv in H.
    destruct H as [(w & r1 & t1 & t2 & Hf & Hk & ->)|[(e & Hf & _)|(Hf & _)]];
      try exact (fetch_trace E _ _ _ _ _ Hf).
    rewrite (fetch_trace E _ _ _ _ _ Hf).
    unfold ret in Hk. now inversion Hk.
  - unfold ret. intros H. now inversion H.
Qed.

Lemma poll_refers fuel assistant : forall thread run r res r' t,
  poll E fuel thread run r = (res, r', t) ->
  forallb (refers_to (thread_id thread) assistant) t = true.
Proof.
  induction fuel as [|fuel IH]; intros thread run r res r' t; simpl;
    destruct (status_pending run).
  - intros H; inversion H; reflexivity.
  - intros H; inversion H; reflexivity.
  - unfold bind at 1 2, print_end, sleep, emit. simpl.
    unfold bind, call.
    destruct (runs_retrieve E (thread_id thread) (run_id run) r)
      as [[run'|e] r1].
    + destruct (poll E fuel thread run' r1) as [[res2 r2] t2] eqn:Hp.
      intros H; inversion H; subst. simpl. rewrite String.eqb_refl.
      exact (IH _ _ _ _ _ _ Hp).
    + intros H; inversion H; subst. simpl. now rewrite String.eqb_refl.
  - intros H; inversion H; reflexivity.
Qed.

Lemma count_poll_events_none p (t : list event) :
  (forall ev, is_poll_event ev = true -> p ev = false) ->
  forallb is_poll_event t = true ->
  count_events p t = 0.
Proof.
  intros Hp. unfold count_events.
  induction t as [|ev t IH]; simpl; [reflexivity|]. intros H.
  apply andb_true_iff in H. destruct H as [H1 H2].
  rewrite (Hp ev H1). exact (IH H2).
Qed.

End SessionShape.

(** X4.  Every request of a session is about the thread that the session
    created: once [assistants.create] has returned an assistant and
    [threads.create] a thread, the message, the run, every retrieval and the
    listing name that thread's id, and the run is created for that
    assistant's id, however the analysis ends. *)
Theorem session_requests_name_the_created_thread :
  forall (R : Type) (E : Env R) (fuel : nat) (input_text : string) (r : R)
         (message_content : string) (r0 : R) (t0 : list event)
         (assistant : Assistant) (r1 : R) (thread : Thread) (r2 : R)
         (res : result string) (r' : R) (t : list event),
    build_message_content E input_text r = (Ok message_content, r0, t0) ->
    assistants_create E ASSISTANT_NAME ASSISTANT_INSTRUCTIONS
                      "gpt-4-turbo" ["retrieval"] r0 = (Returns assistant, r1) ->
    threads_create E r1 = (Returns thread, r2) ->
    analyze_company_with_assistant E fuel input_text r = (res, r', t) ->
    forallb (refers_to (thread_id thread) (assistant_id assistant)) t = true.
Proof.
  intros R E fuel input_text r mc r0 t0 assistant r1 thread r2 res r' t
         Hb Ha Ht H.
  assert (Hs : forall res1 r3 t1,
             run_session E fuel mc r0 = (res1, r3, t1) ->
             forallb (refers_to (thread_id thread) (assistant_id assistant)) t1
             = true).
  { intros res1 r3 t1.
    destruct (messages_create E (thread_id thread) "user" mc r2)
      as [[[]|e] r4] eqn:Hm;
      [|rewrite (fails_at_messages_create E fuel mc r0 _ _ _ _ e r4 Ha Ht Hm);
        intros H1; inversion H1; simpl; now rewrite String.eqb_refl].
    destruct (runs_create E (thread_id thread) (assistant_id assistant) r4)
      as [[run|e] r5] eqn:Hr;
      [|rewrite (fails_at_runs_create E fuel mc r0 _ _ _ _ _ e r5 Ha Ht Hm Hr);
        intros H1; inversion H1; simpl; now rewrite !String.eqb_refl].
    rewrite (run_session_started E fuel mc r0 _ _ _ _ _ _ _ Ha Ht Hm Hr).
    destruct (poll E fuel thread run r5) as [[[run'|e|] r6] t6] eqn:Hp;
      pose proof (poll_refers E _ (assistant_id assistant) _ _ _ _ _ _ Hp) as Ht6.
    - destruct (messages_list E (thread_id thread) r6) as [[ms|e] r7];
        intros H1; inversion H1; subst; simpl; rewrite !String.eqb_refl; simpl;
        rewrite forallb_app, Ht6; simpl; now rewrite String.eqb_refl.
    - intros H1; inversion H1; subst; simpl. now rewrite !String.eqb_refl.
    - intros H1; inversion H1; subst; simpl. now rewrite !String.eqb_refl. }
  assert (Ht0 : forallb (refers_to (thread_id thread) (assistant_id assistant))
                        t0 = true).
  { rewrite (build_message_content_trace E _ _ _ _ _ Hb).
    now destruct (is_url input_text). }
  unfold analyze_company_with_assistant in H.
  unfold bind at 1 in H. rewrite Hb in H.
  destruct (bind _ _ r0) as [[res1 r3] t1] eqn:Hk in H.
  inversion H; subst. clear H. rewrite forallb_app, Ht0. simpl.
  apply bind_inv in Hk.
  destruct Hk as [(ms & r4 & t3 & t4 & Hrun & Hx & ->)|[(e & Hrun & _)|(Hrun & _)]];
    try exact (Hs _ _ _ Hrun).
  apply extract_analysis_trace in Hx. destruct Hx as [_ ->].
  rewrite app_nil_r. exact (Hs _ _ _ Hrun).
Qed.

Lemma session_requests_name_the_created_thread_witness :
  forallb (refers_to "thread_1" "asst_1")
          (snd (analyze_company_with_assistant
                  (Demo.env Demo.served) 5 "Acme" ["in_progress"]))
  = true.
Proof.
  pose (run := analyze_company_with_assistant
                 (Demo.env Demo.served) 5 "Acme" ["in_progress"]).
  exact (session_requests_name_the_created_thread
           _ (Demo.env Demo.served) 5 "Acme" ["in_progress"]
           (name_message "Acme") ["in_progress"] []
           (mk_Assistant "asst_1") ["in_progress"]
           (mk_Thread "thread_1") ["in_progress"]
           (fst (fst run)) (snd (fst run)) (snd run)
           eq_refl eq_refl eq_refl
           (match run as x return run = x -> _ with
            | (a, b, c) => fun H => H
            end eq_refl)).
Defined.

(** X5.  An analysis that returns has made exactly one request of each
    kind: one assistant, one thread, one message and one run created, one
    listing of the messages, one GET for a URL and none for a name; and in
    its trace the dots, the sleeps of one second and the retrievals are as
    many. *)
Theorem a_returned_analysis_made_one_request_of_each_kind :
  forall (R : Type) (E : Env R) (fuel : nat) (input_text : string) (r : R)
         (value : string) (r' : R) (t : list event),
    analyze_company_with_assistant E fuel input_text r = (Ok value, r', t) ->
    count_events is_assistants_create t = 1
    /\ count_events is_threads_create t = 1
    /\ count_events is_messages_create t = 1
    /\ count_events is_runs_create t = 1
    /\ count_events is_messages_list t = 1
    /\ count_events is_http_get t = (if is_url input_text then 1 else 0)
    /\ count_events is_dot t = count_events is_runs_retrieve t
    /\ count_events is_sleep_1 t = count_events is_runs_retrieve t.
Proof.
  intros R E fuel input_text r value r' t H.
  apply analyze_Ok_inv in H.
  destruct H as (mc & r0 & t0 & ms & t1 & Hb & Hs & _ & ->).
  apply build_message_content_trace in Hb.
  apply run_session_Ok_inv in Hs.
  destruct Hs as (a & r1 & th & r2 & r3 & run & r4 & run' & r5 & t5
                  & _ & _ & _ & _ & Hp & _ & ->).
  pose proof (poll_trace E _ _ _ _ _ _ _ Hp) as Hev.
  destruct (poll_counts E _ _ _ _ _ _ _ Hp) as (Hd & Hsl & _).
  assert (Hnone : forall p,
             (forall ev, is_poll_event ev = true -> p ev = false) ->
             count_events p t5 = 0)
    by (intros p Hdis; now apply count_poll_events_none).
  assert (H0 : forall p,
             (forall u ua to, p (HttpGet u ua to) = false) ->
             count_events p t0 = 0).
  { intros p Hq. subst t0. destruct (is_url input_text); [|reflexivity].
    unfold count_events. simpl. now rewrite Hq. }
  rewrite !count_events_app.
  rewrite (Hnone is_assistants_create) by (now intros []).
  rewrite (Hnone is_threads_create) by (now intros []).
  rewrite (Hnone is_messages_create) by (now intros []).
  rewrite (Hnone is_runs_create) by (now intros []).
  rewrite (Hnone is_messages_list) by (now intros []).
  rewrite (Hnone is_http_get) by (now intros []).
  rewrite (H0 is_assistants_create), (H0 is_threads_create),
    (H0 is_messages_create), (H0 is_runs_create), (H0 is_messages_list),
    (H0 is_dot), (H0 is_sleep_1), (H0 is_runs_retrieve) by reflexivity.
  rewrite Hd, Hsl.
  repeat split; try reflexivity.
  subst t0. now destruct (is_url input_text).
Qed.

Lemma a_returned_analysis_made_one_request_of_each_kind_witness :
  let t := snd (analyze_company_with_assistant
                  (Demo.env Demo.served) 5 "https://example.com"
                  ["in_progress"]) in
  count_events is_assistants_create t = 1
  /\ count_events is_threads_create t = 1
  /\ count_events is_messages_create t = 1
  /\ count_events is_runs_create t = 1
  /\ count_events is_messages_list t = 1
  /\ count_events is_http_get t
     = (if is_url "https://example.com" then 1 else 0)
  /\ count_events is_dot t = count_events is_runs_retrieve t
  /\ count_events is_sleep_1 t = count_events is_runs_retrieve t.
Proof.
  exact (a_returned_analysis_made_one_request_of_each_kind
           _ (Demo.env Demo.served) 5 "https://example.com" ["in_progress"]
           "1. Company Summary: ..." [] _ eq_refl).
Defined.

(** X6.  The reply is the first text of the first message of the assistant:
    in the list that the session delivers, the messages before the first one
    whose role is ["assistant"] are skipped, and of that message the value of
    the first content block, a text block, is returned; the blocks after it
    and the messages after it, be they the assistant's, are not read. *)
Theorem the_first_assistant_text_is_the_reply :
  forall (R : Type) (E : Env R) (fuel : nat) (input_text : string) (r : R)
         (message_content : string) (r0 : R) (t0 : list event)
         (messages : list Message) (r1 : R) (t1 : list event)
         (before : list Message) (latest_message : Message)
         (after : list Message) (value : string) (blocks : list ContentBlock),
    build_message_content E input_text r = (Ok message_content, r0, t0) ->
    run_session E fuel message_content r0 = (Ok messages, r1, t1) ->
    messages = (before ++ latest_message :: after)%list ->
    (forall msg, In msg before -> role msg <> "assistant") ->
    role latest_message = "assistant" ->
    content latest_message = TextBlock value :: blocks ->
    analyze_company_with_assistant E fuel input_text r
    = (Ok value, r1, (t0 ++ t1)%list).
Proof.
  intros R E fuel input_text r mc r0 t0 messages r1 t1 before m after value
         blocks Hb Hs -> Hbefore Hrole Hcontent.
  rewrite (analyze_after_session E _ _ _ _ _ _ _ _ _ Hb Hs).
  unfold extract_analysis. rewrite filter_app, filter_none.
  - simpl. rewrite Hrole. simpl. now rewrite Hcontent.
  - intros msg Hin. apply String.eqb_neq. exact (Hbefore msg Hin).
Qed.

Lemma the_first_assistant_text_is_the_reply_witness :
  analyze_company_with_assistant
    (Demo.env (Demo.mk_script
                 (Returns Demo.example_page) "completed"
                 [mk_Message "user" [TextBlock "follow-up"];
                  mk_Message "assistant"
                             [TextBlock "newest"; TextBlock "appendix"];
                  mk_Message "assistant" [TextBlock "older"]]
                 None Demo.APIConnectionError))
    5 "Acme" []
  = (Ok "newest", [],
     ([] ++ [ASSISTANT_REQUEST; ThreadsCreate;
             MessagesCreate "thread_1" "user" (name_message "Acme");
             RunsCreate "thread_1" "asst_1";
             Stdout nl;
             MessagesList "thread_1"])%list).
Proof.
  apply (the_first_assistant_text_is_the_reply
           _ _ 5 "Acme" [] (name_message "Acme") [] []
           [mk_Message "user" [TextBlock "follow-up"];
            mk_Message "assistant" [TextBlock "newest"; TextBlock "appendix"];
            mk_Message "assistant" [TextBlock "older"]]
           [] _
           [mk_Message "user" [TextBlock "follow-up"]]
           (mk_Message "assistant" [TextBlock "newest"; TextBlock "appendix"])
           [mk_Message "assistant" [TextBlock "older"]]
           "newest" [TextBlock "appendix"]).
  - reflexivity.
  - reflexivity.
  - reflexivity.
  - simpl. intros msg [<-|[]]. discriminate.
  - reflexivity.
  - reflexivity.
Defined.

(** X7.  The analysis as a whole, when nothing fails: if the prompt is
    built, the four creations succeed, the service settles the run at its
    [k]-th retrieval, whatever status the run then has, and the listing
    delivers messages of which the first one of the assistant begins with a
    text block, then with time for [k] turns of the poll loop
    [analyze_company_with_assistant] returns the value of that block, leaves
    the world as the listing left it, and has performed the effects of the
    prompt, the four creations, three effects for each of the [k] turns, the
    new line and the listing. *)
Theorem analysis_returns_the_reply_once_the_run_settles :
  forall (R : Type) (E : Env R) (input_text : string) (r : R)
         (message_content : string) (r0 : R) (t0 : list event)
         (assistant : Assistant) (r1 : R) (thread : Thread) (r2 r3 : R)
         (run : Run) (r4 : R) (k : nat) (run' : Run) (r5 : R)
         (messages : list Message) (r6 : R)
         (before : list Message) (latest_message : Message)
         (after : list Message) (value : string) (blocks : list ContentBlock),
    build_message_content E input_text r = (Ok message_content, r0, t0) ->
    assistants_create E ASSISTANT_NAME ASSISTANT_INSTRUCTIONS
                      "gpt-4-turbo" ["retrieval"] r0 = (Returns assistant, r1) ->
    threads_create E r1 = (Returns thread, r2) ->
    messages_create E (thread_id thread) "user" message_content r2
    = (Returns tt, r3) ->
    runs_create E (thread_id thread) (assistant_id assistant) r3
    = (Returns run, r4) ->
    settles_after E thread k run r4 = Some (run', r5) ->
    messages_list E (thread_id thread) r5 = (Returns messages, r6) ->
    messages = (before ++ latest_message :: after)%list ->
    (forall msg, In msg before -> role msg <> "assistant") ->
    role latest_message = "assistant" ->
    content latest_message = TextBlock value :: blocks ->
    forall fuel,
      k <= fuel ->
      exists t,
        analyze_company_with_assistant E fuel input_text r = (Ok value, r6, t)
        /\ List.length t = List.length t0 + 6 + 3 * k
        /\ count_events is_sleep_1 t = k.
Proof.
  intros R E input_text r mc r0 t0 assistant r1 thread r2 r3 run r4 k run' r5
         messages r6 before m after value blocks
         Hb Ha Ht Hm Hr Hk Hl Hms Hbefore Hrole Hcontent fuel Hfuel.
  destruct (poll_settles R E thread k run r4 run' r5 Hk fuel Hfuel)
    as (t5 & Hp & _ & Hsl & _ & Hlen).
  assert (Hs : run_session E fuel mc r0
               = (Ok messages, r6,
                  ([ASSISTANT_REQUEST; ThreadsCreate;
                    MessagesCreate (thread_id thread) "user" mc;
                    RunsCreate (thread_id thread) (assistant_id assistant)]
                     ++ t5 ++ [Stdout nl; MessagesList (thread_id thread)])%list))
    by (rewrite (run_session_started E fuel mc r0 _ _ _ _ _ _ _ Ha Ht Hm Hr),
          Hp, Hl; reflexivity).
  eexists. split.
  - rewrite (analyze_after_session E _ _ _ _ _ _ _ _ _ Hb Hs).
    unfold extract_analysis. rewrite Hms, filter_app, filter_none.
    + simpl. rewrite Hrole. simpl. rewrite Hcontent. reflexivity.
    + intros msg Hin. apply String.eqb_neq. exact (Hbefore msg Hin).
  - split.
    + rewrite !length_app. simpl List.length. rewrite length_app, Hlen.
      simpl. lia.
    + apply build_message_content_trace in Hb.
      unfold count_events in *. rewrite filter_app, length_app. simpl.
      rewrite filter_app, length_app, Hsl. subst t0.
      destruct (is_url input_text); simpl; lia.
Qed.

Lemma analysis_returns_the_reply_once_the_run_settles_witness :
  exists t,
    analyze_company_with_assistant (Demo.env Demo.served) 5 "Acme"
                                   ["in_progress"]
    = (Ok "1. Company Summary: ...", [], t)
    /\ List.length t = List.length (@nil event) + 6 + 3 * 2
    /\ count_events is_sleep_1 t = 2.
Proof.
  apply (analysis_returns_the_reply_once_the_run_settles
           _ (Demo.env Demo.served) "Acme" ["in_progress"]
           (name_message "Acme") ["in_progress"] []
           (mk_Assistant "asst_1") ["in_progress"]
           (mk_Thread "thread_1") ["in_progress"] ["in_progress"]
           (mk_Run "run_1" "queued") ["in_progress"]
           2 (mk_Run "run_1" "completed") []
           Demo.report []
           [] (mk_Message "assistant" [TextBlock "1. Company Summary: ..."])
           [mk_Message "user" [TextBlock "Analyze the following company"]]
           "1. Company Summary: ..." []);
    try reflexivity.
  - intros msg [].
  - lia.
Defined.

(* ================================================================== *)
(** ** How [main] ends *)

Section MainEnds.

Context {R : Type} (analyze : string -> M R string).

(** A turn that ends the loop read a quit word and did nothing; a turn after
    which the loop goes on did not read one. *)
Lemma main_turn_Ok_inv user_input r ctl r' t :
  main_turn analyze user_input r = (Ok ctl, r', t) ->
  (ctl = Break /\ is_quit user_input = true /\ r' = r /\ t = [])
  \/ (ctl = Continue /\ is_quit user_input = false).
Proof.
  unfold main_turn. destruct (is_quit user_input).
  - unfold ret. intros H; inversion H; auto.
  - destruct (negb (truthy (strip user_input))).
    + intros H. apply bind_Ok_inv in H.
      destruct H as ([] & r1 & t1 & t2 & _ & H & _).
      unfold ret in H. inversion H; auto.
    + intros H. apply bind_Ok_inv in H.
      destruct H as ([] & r1 & t1 & t2 & _ & H & _).
      apply bind_Ok_inv in H. destruct H as ([] & r2 & t3 & t4 & _ & H & _).
      unfold ret in H. inversion H; auto.
Qed.

Lemma main_loop_nil r :
  main_loop analyze [] r = (Raise EOFError, r, [Stdout INPUT_PROMPT]).
Proof. reflexivity. Qed.

(** The loop ends normally at a quit word only. *)
Lemma main_loop_Ok_inv stdin : forall r r' t,
  main_loop analyze stdin r = (Ok tt, r', t) ->
  exists before word rest,
    stdin = (before ++ word :: rest)%list
    /\ is_quit word = true
    /\ (forall line, In line before -> is_quit line = false).
Proof.
  induction stdin as [|user_input stdin IH]; intros r r' t H.
  - rewrite main_loop_nil in H. discriminate.
  - rewrite main_loop_cons in H.
    destruct (main_turn analyze user_input r) as [[[ctl|e|] r1] t1] eqn:Hturn;
      try discriminate.
    destruct (main_turn_Ok_inv _ _ _ _ _ Hturn) as [(-> & Hq & _)|(-> & Hq)].
    + exists [], user_input, stdin. simpl. repeat split; [exact Hq|].
      intros line [].
    + destruct (main_loop analyze stdin r1) as [[res r2] t2] eqn:Hloop.
      assert (res = Ok tt) by congruence. subst res.
      destruct (IH _ _ _ Hloop) as (before & word & rest & -> & Hw & Hb).
      exists (user_input :: before), word, rest. simpl. repeat split.
      * exact Hw.
      * intros line [<-|Hin]; [exact Hq | exact (Hb line Hin)].
Qed.

(** [main] is the banner, the loop and, if the loop ends, the farewell. *)
Lemma main_with_unfold stdin r :
  main_with analyze stdin r
  = match main_loop analyze stdin r with
    | (Ok _, r1, t1) =>
        (Ok tt, r1,
         ([Stdout ("OpenAI SDK Research Assistant (Using Assistants API)"
                   ++ nl);
           Stdout ("=================================================" ++ nl);
           Stdout ("Enter a company name or website URL to analyze:" ++ nl)]
            ++ t1
            ++ [Stdout ((nl ++ "Thank you for using the Research Assistant!")
                        ++ nl)])%list)
    | (Raise e, r1, t1) =>
        (Raise e, r1,
         ([Stdout ("OpenAI SDK Research Assistant (Using Assistants API)"
                   ++ nl);
           Stdout ("=================================================" ++ nl);
           Stdout ("Enter a company name or website URL to analyze:" ++ nl)]
            ++ t1)%list)
    | (OutOfFuel, r1, t1) =>
        (OutOfFuel, r1,
         ([Stdout ("OpenAI SDK Research Assistant (Using Assistants API)"
                   ++ nl);
           Stdout ("=================================================" ++ nl);
           Stdout ("Enter a company name or website URL to analyze:" ++ nl)]
            ++ t1)%list)
    end.
Proof.
  unfold main_with. unfold bind at 1 2 3, print at 1 2 3, emit. simpl.
  unfold bind.
  destruct (main_loop analyze stdin r) as [[[[]|e|] r1] t1]; reflexivity.
Qed.

(** Blank lines to the end of the input: [input] raises [EOFError]. *)
Lemma main_loop_blank_lines stdin : forall r,
  (forall line, In line stdin -> all_space line = true) ->
  exists t,
    main_loop analyze stdin r = (Raise EOFError, r, t)
    /\ count_events is_messages_create t = 0.
Proof.
  induction stdin as [|user_input stdin IH]; intros r Hblank.
  - exists [Stdout INPUT_PROMPT]. split; reflexivity.
  - rewrite main_loop_cons.
    rewrite (main_turn_blank analyze user_input r
               (Hblank _ (or_introl eq_refl))).
    destruct (IH r (fun line H => Hblank line (or_intror H))) as (t & Ht & Hc).
    rewrite Ht. eexists. split; [reflexivity|].
    unfold count_events in *. simpl. exact Hc.
Qed.

(** What follows a quit word is not read. *)
Lemma main_loop_after_quit before word rest rest' : forall r,
  is_quit word = true ->
  main_loop analyze (before ++ word :: rest) r
  = main_loop analyze (before ++ word :: rest') r.
Proof.
  induction before as [|user_input before IH]; intros r Hq; simpl app.
  - now rewrite !main_loop_cons, (main_turn_quit analyze word r Hq).
  - rewrite !main_loop_cons.
    destruct (main_turn analyze user_input r) as [[[[|]|e|] r1] t1];
      try reflexivity.
    now rewrite (IH r1 Hq).
Qed.

End MainEnds.

(** X8.  [main] returns, and so prints its farewell, only if a quit word
    was typed: when it returns, some line of the input lowers to [quit],
    [exit] or [q], no line before it does.  When the input ends first, here
    after blank lines only, [input] raises [EOFError], which [main] does not
    catch: it raises it, with the world as it was and without having posted
    anything. *)
Theorem main_returns_only_after_a_quit_word :
  forall (R : Type) (analyze : string -> M R string) (stdin : list string)
         (r : R),
    (forall r' t,
        main_with analyze stdin r = (Ok tt, r', t) ->
        exists before word rest,
          stdin = (before ++ word :: rest)%list
          /\ is_quit word = true
          /\ (forall line, In line before -> is_quit line = false))
    /\ ((forall line, In line stdin -> all_space line = true) ->
        exists t,
          main_with analyze stdin r = (Raise EOFError, r, t)
          /\ count_events is_messages_create t = 0).
Proof.
  intros R analyze stdin r. split.
  - intros r' t H. rewrite main_with_unfold in H.
    destruct (main_loop analyze stdin r) as [[[[]|e|] r1] t1] eqn:Hloop;
      try discriminate.
    exact (main_loop_Ok_inv analyze stdin _ _ _ Hloop).
  - intros Hblank.
    destruct (main_loop_blank_lines analyze stdin r Hblank) as (t & Ht & Hc).
    rewrite main_with_unfold, Ht. eexists. split; [reflexivity|].
    unfold count_events in *. simpl. exact Hc.
Qed.

Lemma main_returns_only_after_a_quit_word_witness :
  (exists before word rest,
      [" "; "Quit"; "Acme"] = (before ++ word :: rest)%list
      /\ is_quit word = true
      /\ (forall line, In line before -> is_quit line = false))
  /\ (exists t,
         main_with (analyze_company_with_assistant (Demo.env Demo.served) 5)
                   [" "; ""] []
         = (Raise EOFError, [], t)
         /\ count_events is_messages_create t = 0).
Proof.
  split.
  - apply (proj1 (main_returns_only_after_a_quit_word
                    _ (analyze_company_with_assistant (Demo.env Demo.served) 5)
                    [" "; "Quit"; "Acme"] [])
                 []
                 (snd (main_with (analyze_company_with_assistant
                                    (Demo.env Demo.served) 5)
                                 [" "; "Quit"; "Acme"] []))).
    reflexivity.
  - apply (proj2 (main_returns_only_after_a_quit_word
                    _ (analyze_company_with_assistant (Demo.env Demo.served) 5)
                    [" "; ""] [])).
    intros line [<-|[<-|[]]]; reflexivity.
Defined.

(** X9.  The lines after the first quit word are never read: whatever
    follows it on standard input, [main] does the same. *)
Theorem lines_after_a_quit_word_are_not_read :
  forall (R : Type) (analyze : string -> M R string)
         (before : list string) (word : string) (rest rest' : list string)
         (r : R),
    is_quit word = true ->
    main_with analyze (before ++ word :: rest) r
    = main_with analyze (before ++ word :: rest') r.
Proof.
  intros R analyze before word rest rest' r Hq.
  now rewrite !main_with_unfold,
    (main_loop_after_quit analyze before word rest rest' r Hq).
Qed.

Lemma lines_after_a_quit_word_are_not_read_witness :
  main_with (analyze_company_with_assistant (Demo.env Demo.served) 5)
            ([" "] ++ "EXIT" :: ["Acme"; "https://example.com"]) []
  = main_with (analyze_company_with_assistant (Demo.env Demo.served) 5)
              ([" "] ++ "EXIT" :: []) [].
Proof.
  apply (lines_after_a_quit_word_are_not_read
           _ (analyze_company_with_assistant (Demo.env Demo.served) 5)
           [" "] "EXIT" ["Acme"; "https://example.com"] [] []).
  reflexivity.
Defined.

(* ================================================================== *)
(** ** Which lines are fetched *)

Lemma is_url_iff (input_text : string) :
  is_url input_text = true <->
  (exists rest, input_text = "http://" ++ rest)
  \/ (exists rest, input_text = "https://" ++ rest).
Proof.
  unfold is_url, startswith. rewrite orb_true_iff. split.
  - intros [H|H]; [left|right]; exact (prefix_split _ _ H).
  - intros [[rest ->]|[rest ->]]; [left|right]; apply prefix_append.
Qed.

Lemma is_url_first_char (c : ascii) (rest : string) :
  c <> "h"%char -> is_url (String c rest) = false.
Proof.
  intros Hc. unfold is_url, startswith. cbn [String.prefix].
  destruct (ascii_dec "h" c) as [<-|_]; [now destruct Hc | reflexivity].
Qed.

(** The events of a turn are the turn's own prints and the events of the
    orchestrator. *)
Lemma main_turn_events {R} (analyze : string -> M R string) user_input r
      res r' t :
  main_turn analyze user_input r = (res, r', t) ->
  forall ev, In ev t ->
    (exists written, ev = Stdout written)
    \/ In ev (snd (analyze user_input r)).
Proof.
  unfold main_turn. destruct (is_quit user_input).
  - unfold ret. intros H; inversion H. intros ev [].
  - destruct (negb (truthy (strip user_input))).
    + unfold bind, print, emit, ret. intros H; inversion H; subst.
      intros ev [<-|[]]. left. eauto.
    + unfold bind, try_except, print, emit, ret.
      destruct (analyze user_input r) as [[[v|e|] r1] t1];
        [| destruct (exc_is_Exception e) |]; simpl;
        intros H; inversion H; subst; intros ev Hin; simpl in Hin;
        rewrite ?in_app_iff in Hin; simpl in Hin;
        repeat match goal with
               | H : _ \/ _ |- _ => destruct H
               | H : False |- _ => destruct H
               | H : Stdout _ = ev |- _ => left; eexists; symmetry; exact H
               end;
        auto.
Qed.

(** X10.  A line is fetched only if it starts with [http://] or [https://]
    exactly as written, in lower case and at the first character.  Any line
    whose first character is not [h], such as a URL typed after a space or
    with a capital, is not a URL, and in the turn of the loop for a line that
    is not a URL no GET is performed. *)
Theorem only_an_exact_scheme_prefix_is_fetched :
  forall (R : Type) (E : Env R) (fuel : nat) (user_input : string) (r : R),
    (is_url user_input = true <->
     (exists rest, user_input = "http://" ++ rest)
     \/ (exists rest, user_input = "https://" ++ rest))
    /\ (forall c rest,
           user_input = String c rest -> c <> "h"%char ->
           is_url user_input = false)
    /\ (forall res r' t,
           is_url user_input = false ->
           main_turn (analyze_company_with_assistant E fuel) user_input r
           = (res, r', t) ->
           forall url user_agent timeout,
             ~ In (HttpGet url user_agent timeout) t).
Proof.
  intros R E fuel user_input r. split; [apply is_url_iff|]. split.
  - intros c rest -> Hc. now apply is_url_first_char.
  - intros res r' t Hurl Hturn u ua timeout Hin.
    destruct (main_turn_events _ _ _ _ _ _ Hturn _ Hin) as [[w Hw]|Hev];
      [discriminate|].
    destruct (analyze_company_with_assistant E fuel user_input r)
      as [[res1 r1] t1] eqn:Ha.
    destruct (analyze_name_trace E _ _ _ _ _ _ Hurl Ha) as [_ Ht].
    rewrite forallb_forall in Ht. specialize (Ht _ Hev). discriminate Ht.
Qed.

Lemma only_an_exact_scheme_prefix_is_fetched_witness :
  is_url " https://example.com" = false
  /\ forall url user_agent timeout,
      ~ In (HttpGet url user_agent timeout)
           (snd (main_turn (analyze_company_with_assistant
                              (Demo.env Demo.served) 5)
                           " https://example.com" [])).
Proof.
  pose (turn := main_turn (analyze_company_with_assistant
                             (Demo.env Demo.served) 5)
                          " https://example.com" []).
  destruct (only_an_exact_scheme_prefix_is_fetched
              _ (Demo.env Demo.served) 5 " https://example.com" [])
    as (_ & Hfirst & Hget).
  split.
  - apply (Hfirst " "%char "https://example.com" eq_refl). discriminate.
  - apply (Hget (fst (fst turn)) (snd (fst turn)) (snd turn) eq_refl).
    subst turn. now destruct (main_turn _ _ _) as [[a b] c].
Defined.

(* ================================================================== *)
(** ** A run that never settles, and exceptions that are not caught *)

Section Blocking.

Context {R : Type} (E : Env R).

Lemma run_session_blocks fuel mc r :
  never_settles E ->
  exists r' t,
    run_session E fuel mc r = (OutOfFuel, r', t)
    /\ forallb (is_session_event mc) t = true.
Proof.
  intros (Ha & Ht & Hm & Hr & Hp).
  destruct (Ha ASSISTANT_NAME ASSISTANT_INSTRUCTIONS "gpt-4-turbo"
               ["retrieval"] r) as (a & r1 & Ha1).
  destruct (Ht r1) as (th & r2 & Ht1).
  destruct (Hm (thread_id th) "user" mc r2) as (r3 & Hm1).
  destruct (Hr (thread_id th) (assistant_id a) r3) as (run & r4 & Hr1 & Hpend).
  destruct (poll_blocks E th Hp fuel run r4 Hpend) as (r5 & t5 & Hpoll & _).
  pose proof (run_session_started E fuel mc r _ _ _ _ _ _ _ Ha1 Ht1 Hm1 Hr1)
    as Hs.
  rewrite Hpoll in Hs. eexists; eexists. split; [exact Hs|].
  eapply run_session_trace. exact Hs.
Qed.

End Blocking.

(** X11.  A run that never settles blocks the program for ever.  If the
    service accepts every request and every run it creates or reports is
    pending, then for a line that is no quit word and not blank, once the
    prompt is built, [main] is still running whatever time it is given: it
    neither returns nor raises, and it has read no line but that one. *)
Theorem a_run_that_never_settles_blocks_main :
  forall (R : Type) (E : Env R) (user_input : string) (rest : list string)
         (r : R) (message_content : string) (r0 : R) (t0 : list event),
    never_settles E ->
    is_quit user_input = false ->
    all_space user_input = false ->
    build_message_content E user_input r = (Ok message_content, r0, t0) ->
    forall fuel,
      exists r' t,
        main E fuel (user_input :: rest) r = (OutOfFuel, r', t)
        /\ (forall line, In (Stdin line) t -> line = user_input).
Proof.
  intros R E user_input rest r mc r0 t0 Hnever Hq Hs Hb fuel.
  destruct (run_session_blocks E fuel mc r0 Hnever) as (r1 & t1 & Hrun & Hev).
  assert (Ha : analyze_company_with_assistant E fuel user_input r
               = (OutOfFuel, r1, (t0 ++ t1)%list)).
  { unfold analyze_company_with_assistant.
    erewrite bind_Ok; [reflexivity|exact Hb|]. now apply bind_OutOfFuel. }
  assert (Hturn : main_turn (analyze_company_with_assistant E fuel)
                            user_input r
                  = (OutOfFuel, r1,
                     ([Stdout ((nl ++ "Analyzing... This may take a moment.")
                               ++ nl)] ++ t0 ++ t1)%list)).
  { rewrite (main_turn_query _ _ r Hq Hs).
    unfold bind at 1, print at 1, emit.
    unfold bind at 1, try_except, bind at 1. now rewrite Ha. }
  unfold main. rewrite main_with_unfold, main_loop_cons, Hturn.
  eexists; eexists. split; [reflexivity|].
  intros line Hin. simpl in Hin.
  destruct Hin as [Hin|[Hin|[Hin|[Hin|[Hin|[Hin|Hin]]]]]];
    try discriminate; [now inversion Hin|].
  apply in_app_or in Hin. destruct Hin as [Hin|Hin].
  - rewrite (build_message_content_trace E _ _ _ _ _ Hb) in Hin.
    destruct (is_url user_input); simpl in Hin;
      [destruct Hin as [Hin|[]]; discriminate | destruct Hin].
  - rewrite forallb_forall in Hev. specialize (Hev _ Hin). discriminate Hev.
Qed.

Lemma a_run_that_never_settles_blocks_main_witness :
  exists r' t,
    main Stuck.env 1000 ["Acme"; "quit"] tt = (OutOfFuel, r', t)
    /\ (forall line, In (Stdin line) t -> line = "Acme").
Proof.
  apply (a_run_that_never_settles_blocks_main
           _ Stuck.env "Acme" ["quit"] tt (name_message "Acme") tt []).
  - unfold never_settles. repeat split; intros; simpl; eauto.
  - reflexivity.
  - reflexivity.
  - reflexivity.
Defined.

(** X12.  An exception that [except Exception] does not catch, such as a
    [KeyboardInterrupt], passes through every handler of the program: raised
    by the GET it leaves [fetch_website_content] and, for a URL, the
    orchestrator; raised in the orchestrator for a line that is no quit word
    and not blank it leaves [main], which then has not printed its
    farewell and reads no further line. *)
Theorem an_exception_that_is_no_Exception_ends_main :
  forall (R : Type) (E : Env R) (fuel : nat) (user_input : string)
         (rest : list string) (r : R) (e : exn) (r1 : R),
    exc_is_Exception e = false ->
    (requests_get E user_input USER_AGENT 10 r = (Raises e, r1) ->
     fetch_website_content E user_input r
     = (Raise e, r1, [HttpGet user_input USER_AGENT 10])
     /\ (is_url user_input = true ->
         analyze_company_with_assistant E fuel user_input r
         = (Raise e, r1, [HttpGet user_input USER_AGENT 10])))
    /\ (forall t1,
           is_quit user_input = false ->
           all_space user_input = false ->
           analyze_company_with_assistant E fuel user_input r
           = (Raise e, r1, t1) ->
           main E fuel (user_input :: rest) r
           = (Raise e, r1,
              ([Stdout ("OpenAI SDK Research Assistant (Using Assistants API)"
                        ++ nl);
                Stdout ("================================================="
                        ++ nl);
                Stdout ("Enter a company name or website URL to analyze:" ++ nl);
                Stdout INPUT_PROMPT; Stdin user_input;
                Stdout ((nl ++ "Analyzing... This may take a moment.") ++ nl)]
                 ++ t1)%list)).
Proof.
  intros R E fuel user_input rest r e r1 He. split.
  - intros Hg.
    assert (Hf : fetch_website_content E user_input r
                 = (Raise e, r1, [HttpGet user_input USER_AGENT 10])).
    { unfold fetch_website_content, try_except.
      now rewrite (try_transport_error E _ _ _ _ Hg), He. }
    split; [exact Hf|]. intros Hurl.
    unfold analyze_company_with_assistant, build_message_content.
    rewrite Hurl. apply bind_Raise. now apply bind_Raise.
  - intros t1 Hq Hs Ha.
    assert (Hturn : main_turn (analyze_company_with_assistant E fuel)
                              user_input r
                    = (Raise e, r1,
                       ([Stdout ((nl ++ "Analyzing... This may take a moment.")
                                 ++ nl)] ++ t1)%list)).
    { rewrite (main_turn_query _ _ r Hq Hs).
      unfold bind at 1, print at 1, emit.
      unfold bind at 1, try_except, bind at 1. now rewrite Ha, He. }
    unfold main. now rewrite main_with_unfold, main_loop_cons, Hturn.
Qed.

Lemma an_exception_that_is_no_Exception_ends_main_witness :
  main (Demo.env (Demo.mk_script
                    (Raises (mk_exn "KeyboardInterrupt" false ""))
                    "queued" Demo.report None Demo.APIConnectionError))
       5 ["https://example.com"; "quit"] []
  = (Raise (mk_exn "KeyboardInterrupt" false ""), [],
     ([Stdout ("OpenAI SDK Research Assistant (Using Assistants API)" ++ nl);
       Stdout ("=================================================" ++ nl);
       Stdout ("Enter a company name or website URL to analyze:" ++ nl);
       Stdout INPUT_PROMPT; Stdin "https://example.com";
       Stdout ((nl ++ "Analyzing... This may take a moment.") ++ nl)]
        ++ [HttpGet "https://example.com" USER_AGENT 10])%list).
Proof.
  apply (proj2 (an_exception_that_is_no_Exception_ends_main
                  _ _ 5 "https://example.com" ["quit"] []
                  (mk_exn "KeyboardInterrupt" false "") [] eq_refl)).
  - reflexivity.
  - reflexivity.
  - reflexivity.
Defined.

(* ================================================================== *)
(** ** The page text inside the prompt *)

Section EmbeddedText.

Lemma slice_to_plain (n : nat) : forall s,
  only_plain_spaces s = true -> only_plain_spaces (slice_to n s) = true.
Proof.
  unfold slice_to. induction n as [|n IH]; intros [|c s] H; simpl;
    try reflexivity.
  simpl in H. apply andb_true_iff in H. destruct H as [Hc Hs].
  now rewrite Hc, (IH s Hs).
Qed.

Lemma slice_to_head (n : nat) (s : string) :
  starts_with_space s = false -> starts_with_space (slice_to n s) = false.
Proof.
  unfold slice_to. destruct n as [|n]; destruct s as [|c s]; simpl; auto.
Qed.

Lemma slice_to_single (n : nat) : forall s,
  has_double_space s = false -> has_double_space (slice_to n s) = false.
Proof.
  unfold slice_to. induction n as [|n IH]; intros [|c s] H; simpl;
    try reflexivity.
  simpl in H. apply orb_false_iff in H. destruct H as [Hc Hs].
  rewrite (IH s Hs), orb_false_r.
  destruct (isspace c); [|reflexivity]. simpl in Hc |- *.
  exact (slice_to_head n s Hc).
Qed.

(** Text whose only whitespace is the plain space has no character of a
    line break. *)
Lemma plain_spaces_lack (c : ascii) (s : string) :
  isspace c = true -> c <> " "%char ->
  only_plain_spaces s = true -> lacks c s = true.
Proof.
  intros Hc Hne. induction s as [|d s IH]; simpl; [reflexivity|].
  intros H. apply andb_true_iff in H. destruct H as [Hd Hs].
  rewrite (IH Hs), andb_true_r.
  destruct (Ascii.eqb_spec d c) as [->|_]; [|reflexivity].
  rewrite Hc in Hd. simpl in Hd. apply Ascii.eqb_eq in Hd. now destruct Hne.
Qed.

End EmbeddedText.

(** X13.  The text of a page cannot change the layout of the prompt.  For a
    URL query whose fetch succeeds, what the posted prompt embeds in its
    [Website Content] section is the first 4000 characters of the normalised
    text: it does not begin with whitespace, its only whitespace characters
    are single plain spaces, and so it has no line feed, carriage return or
    tab: the section stays one line. *)
Theorem fetched_page_text_stays_on_one_line :
  forall (R : Type) (E : Env R) (fuel : nat) (input_text : string) (r : R)
         (response : Response) (r1 : R) (extracted : string)
         (res : result string) (r' : R) (t : list event)
         (thread role content : string),
    is_url input_text = true ->
    requests_get E input_text USER_AGENT 10 r = (Returns response, r1) ->
    ~ 400 <= status_code response < 600 ->
    soup_get_text E (text response) = Returns extracted ->
    analyze_company_with_assistant E fuel input_text r = (res, r', t) ->
    In (MessagesCreate thread role content) t ->
    exists embedded,
      content = url_message input_text embedded
      /\ embedded = slice_to 4000 (strip (re_sub_ws extracted))
      /\ starts_with_space embedded = false
      /\ has_double_space embedded = false
      /\ only_plain_spaces embedded = true
      /\ lacks (ascii_of_nat 10) embedded = true
      /\ lacks (ascii_of_nat 13) embedded = true
      /\ lacks (ascii_of_nat 9) embedded = true.
Proof.
  intros R E fuel input_text r response r1 extracted res r' t thread role
         content Hurl Hg Hc Hs Hrun Hin.
  destruct (analyze_posts E _ _ _ _ _ _ _ _ _ Hrun Hin) as [_ (r2 & t2 & Hb)].
  unfold build_message_content in Hb. rewrite Hurl in Hb.
  unfold bind in Hb.
  rewrite (fetch_succeeds E _ _ _ _ _ Hg (http_error_msg_empty _ Hc) Hs) in Hb.
  unfold ret in Hb.
  assert (Hcontent : content
                     = url_message input_text
                         (slice_to 4000 (strip (re_sub_ws extracted))))
    by congruence.
  destruct (clean_text_normal extracted) as (H1 & _ & H3 & H4).
  pose proof (slice_to_plain 4000 _ H4) as Hplain.
  exists (slice_to 4000 (strip (re_sub_ws extracted))).
  split; [exact Hcontent|]. split; [reflexivity|].
  split; [now apply slice_to_head|]. split; [now apply slice_to_single|].
  split; [exact Hplain|].
  repeat split; apply plain_spaces_lack; try exact Hplain;
    try reflexivity; discriminate.
Qed.

Lemma fetched_page_text_stays_on_one_line_witness :
  exists embedded,
    url_message "https://example.com"
                "Example Domain This domain is for use in examples."
    = url_message "https://example.com" embedded
    /\ embedded
       = slice_to 4000
           (strip (re_sub_ws
                     "Example   Domain  This domain is for use in examples. "))
    /\ starts_with_space embedded = false
    /\ has_double_space embedded = false
    /\ only_plain_spaces embedded = true
    /\ lacks (ascii_of_nat 10) embedded = true
    /\ lacks (ascii_of_nat 13) embedded = true
    /\ lacks (ascii_of_nat 9) embedded = true.
Proof.
  pose (run := analyze_company_with_assistant
                 (Demo.env Demo.served) 5 "https://example.com" []).
  apply (fetched_page_text_stays_on_one_line
           _ (Demo.env Demo.served) 5 "https://example.com" []
           Demo.example_page []
           "Example   Domain  This domain is for use in examples. "
           (fst (fst run)) (snd (fst run)) (snd run) "thread_1" "user").
  - reflexivity.
  - reflexivity.
  - simpl. lia.
  - reflexivity.
  - subst run.
    destruct (analyze_company_with_assistant _ _ _ _) as [[res r'] t].
    reflexivity.
  - vm_compute. right; right; right; left. reflexivity.
Defined.
